(** * nmap_scan.py: a shallow embedding and its checked properties

    The script is a thin command-line driver: it reads a target and a menu
    choice from standard input, resolves the target with
    [socket.gethostbyname], runs python-nmap and prints (optionally saves)
    the formatted result.

    The embedding keeps the script's shape.  Every function of the script
    is a computation in a small state-and-exception monad [M] over a
    [State] that holds what the script can change (standard input and
    output, the log [nmap_scan.log], the files it writes, the number of
    clock readings) and an [Env] that holds what the script only consults
    (the resolver, the nmap engine, [termcolor.colored], the clock).
    Writing to standard output, to the log and to a result file is taken
    to succeed. *)

From Stdlib Require Import String Ascii List ZArith NArith Lia Bool DecimalString.
From stdpp Require Import base strings gmap list.

Local Open Scope string_scope.
Local Open Scope list_scope.

(** ** Python strings

    A Python [str] is modelled by a Rocq [string]; a character stands for
    the code point of the same number (0..255). *)

Module PyStr.

Definition between (lo hi n : nat) : bool := Nat.leb lo n && Nat.leb n hi.

Definition chr (n : nat) : string := String (ascii_of_nat n) EmptyString.

Definition nl : string := chr 10.
Definition tab : string := chr 9.

(** [str.isspace] on the code points 0..255. *)
Definition is_space (c : ascii) : bool :=
  let n := nat_of_ascii c in
  between 9 13 n || between 28 32 n || Nat.eqb n 133 || Nat.eqb n 160.

Fixpoint lstrip (s : string) : string :=
  match s with
  | EmptyString => EmptyString
  | String c r => if is_space c then lstrip r else s
  end.

Fixpoint rstrip (s : string) : string :=
  match s with
  | EmptyString => EmptyString
  | String c r =>
      match rstrip r with
      | EmptyString => if is_space c then EmptyString else String c EmptyString
      | r' => String c r'
      end
  end.

(** [s.strip()] *)
Definition strip (s : string) : string := rstrip (lstrip s).

Definition lower_char (c : ascii) : ascii :=
  let n := nat_of_ascii c in
  if between 65 90 n || (between 192 222 n && negb (Nat.eqb n 215))
  then ascii_of_nat (n + 32) else c.

(** [s.lower()] *)
Fixpoint lower (s : string) : string :=
  match s with
  | EmptyString => EmptyString
  | String c r => String (lower_char c) (lower r)
  end.

(** [sep.join(parts)] *)
Definition join (sep : string) (parts : list string) : string :=
  String.concat sep parts.

(** [str(n)] for a non-negative [int]. *)
Definition str_of_N (n : N) : string := NilZero.string_of_uint (N.to_uint n).

Fixpoint zeros (k : nat) : string :=
  match k with
  | O => EmptyString
  | S k' => String "0" (zeros k')
  end.

(** The [%0<w>d] conversion. *)
Definition zfill (w : nat) (n : N) : string :=
  let d := str_of_N n in
  zeros (w - String.length d) +:+ d.

(** [s.split(sep)] for a one-character separator. *)
Fixpoint split_on (sep : ascii) (s : string) : list string :=
  match s with
  | EmptyString => [EmptyString]
  | String c r =>
      if Ascii.eqb c sep then EmptyString :: split_on sep r
      else match split_on sep r with
           | [] => [String c EmptyString]
           | f :: fs => String c f :: fs
           end
  end.

Definition is_digit (c : ascii) : bool :=
  between 48 57 (nat_of_ascii c).

Definition is_hex_digit (c : ascii) : bool :=
  let n := nat_of_ascii c in
  is_digit c || between 65 70 n || between 97 102 n.

Fixpoint all_chars (p : ascii -> bool) (s : string) : bool :=
  match s with
  | EmptyString => true
  | String c r => p c && all_chars p r
  end.

(** Value of a string of decimal digits. *)
Fixpoint decimal_value (acc : N) (s : string) : N :=
  match s with
  | EmptyString => acc
  | String c r => decimal_value (10 * acc + (N_of_ascii c - 48))%N r
  end.

End PyStr.

Import PyStr.

(** ** Exceptions

    The classes the script can meet, with the part of Python's hierarchy
    its three [except] clauses test. *)

Inductive exn_class : Type :=
| OSError            (* socket.error is OSError; gaierror and herror derive from it *)
| PortScannerError   (* nmap.PortScannerError, a direct subclass of Exception *)
| EOFError           (* input() at end of file *)
| UnicodeError       (* a host name the idna codec refuses *)
| OtherException     (* any other subclass of Exception *)
| KeyboardInterrupt. (* BaseException, not an Exception *)

Record exn : Type := Exn { exn_class_of : exn_class; exn_str : string }.

(** [except socket.error] *)
Definition is_socket_error (e : exn) : bool :=
  match exn_class_of e with OSError => true | _ => false end.

(** [except nmap.PortScannerError] *)
Definition is_PortScannerError (e : exn) : bool :=
  match exn_class_of e with PortScannerError => true | _ => false end.

(** [except Exception] *)
Definition is_Exception (e : exn) : bool :=
  match exn_class_of e with KeyboardInterrupt => false | _ => true end.

Inductive Outcome (A : Type) : Type :=
| Return (a : A)
| Raise (e : exn).

Arguments Return {A} a.
Arguments Raise {A} e.

(** ** Data of the external libraries *)

Inductive color : Type := red | green | yellow | blue | magenta | cyan.
Inductive attr : Type := bold.

Inductive log_level : Type := INFO | ERROR.

(** [datetime.datetime] *)
Record datetime : Type := {
  year : N; month : N; day : N;
  hour : N; minute : N; second : N; microsecond : N
}.

(** [nm[host]]: a [PortScannerHostDict].  The value stored for a port is a
    dictionary; [port_items] carries, for each port, the text [str()]
    gives for it, which is all the script uses. *)
Record HostDict : Type := {
  hostname : string;
  state : string;
  all_protocols : list string;
  port_items : string -> list (N * string)
}.

(** A [PortScanner] after [scan]: the hosts it lists and [nm[host]] for
    each of them. *)
Record PortScanner : Type := {
  all_hosts : list string;
  getitem : string -> HostDict
}.

(** ** The world of the script *)

Record State : Type := {
  stdin : list string;                 (* lines not yet read, without their newline *)
  stdout : list string;                (* texts written, oldest first *)
  log : list (log_level * string);     (* records of nmap_scan.log, oldest first *)
  files : gmap string string;          (* files opened with mode 'w' and their text *)
  ticks : nat                          (* readings of the clock so far *)
}.

Record Env : Type := {
  gethostbyname : string -> Outcome string;          (* socket.gethostbyname *)
  PortScanner_init : Outcome unit;                   (* nmap.PortScanner() *)
  scan : string -> string -> Outcome PortScanner;    (* nm.scan(target, arguments=options) *)
  colored : string -> color -> list attr -> string;  (* termcolor.colored *)
  clock : nat -> datetime                            (* the n-th reading of datetime.now() *)
}.

Definition set_stdin (l : list string) (s : State) : State :=
  {| stdin := l; stdout := stdout s; log := log s; files := files s; ticks := ticks s |}.

Definition write_stdout (t : string) (s : State) : State :=
  {| stdin := stdin s; stdout := stdout s ++ [t]; log := log s; files := files s;
     ticks := ticks s |}.

Definition append_log (r : log_level * string) (s : State) : State :=
  {| stdin := stdin s; stdout := stdout s; log := log s ++ [r]; files := files s;
     ticks := ticks s |}.

Definition write_file (name text : string) (s : State) : State :=
  {| stdin := stdin s; stdout := stdout s; log := log s;
     files := <[name := text]> (files s); ticks := ticks s |}.

Definition tick (s : State) : State :=
  {| stdin := stdin s; stdout := stdout s; log := log s; files := files s;
     ticks := S (ticks s) |}.

(** ** The monad: state, and exceptions that leave the state as it is at
    the raise *)

Definition M (A : Type) : Type := State -> Outcome A * State.

Definition ret {A} (a : A) : M A := fun s => (Return a, s).

Definition bind {A B} (m : M A) (k : A -> M B) : M B :=
  fun s =>
    match m s with
    | (Return a, s') => k a s'
    | (Raise e, s') => (Raise e, s')
    end.

Notation "'do' x <- m ; k" := (bind m (fun x => k))
  (at level 10, x name, m at level 100, k at level 200).

(** [try: body except ...]: [handler e] is the suite of the first clause
    that matches [e], or [None] when no clause does. *)
Definition try_except {A} (body : M A) (handler : exn -> option (M A)) : M A :=
  fun s =>
    match body s with
    | (Return a, s') => (Return a, s')
    | (Raise e, s') =>
        match handler e with
        | Some h => h s'
        | None => (Raise e, s')
        end
    end.

(** A call into a library whose result the environment fixes. *)
Definition call {A} (o : Outcome A) : M A := fun s => (o, s).

(** [print(t)] *)
Definition print (t : string) : M unit :=
  fun s => (Return tt, write_stdout (t +:+ nl) s).

(** [input(prompt)] *)
Definition input (prompt : string) : M string :=
  fun s =>
    let s1 := write_stdout prompt s in
    match stdin s with
    | [] => (Raise (Exn EOFError "EOF when reading a line"), s1)
    | l :: rest => (Return l, set_stdin rest s1)
    end.

(** [logging.info(msg)] and [logging.error(msg)] with the root logger at
    level INFO. *)
Definition logging_info (msg : string) : M unit :=
  fun s => (Return tt, append_log (INFO, msg) s).

Definition logging_error (msg : string) : M unit :=
  fun s => (Return tt, append_log (ERROR, msg) s).

(** [open(name, 'w')], [f.write(text)] and the close at the end of [with]. *)
Definition open_write (name text : string) : M unit :=
  fun s => (Return tt, write_file name text s).

(** [%Y%m%d_%H%M%S] *)
Definition strftime_stamp (d : datetime) : string :=
  str_of_N (year d) +:+ zfill 2 (month d) +:+ zfill 2 (day d) +:+ "_"
  +:+ zfill 2 (hour d) +:+ zfill 2 (minute d) +:+ zfill 2 (second d).

(** [str(d)] *)
Definition str_datetime (d : datetime) : string :=
  zfill 4 (year d) +:+ "-" +:+ zfill 2 (month d) +:+ "-" +:+ zfill 2 (day d)
  +:+ " " +:+ zfill 2 (hour d) +:+ ":" +:+ zfill 2 (minute d) +:+ ":"
  +:+ zfill 2 (second d)
  +:+ (if N.eqb (microsecond d) 0 then "" else "." +:+ zfill 6 (microsecond d)).

(** [for x in xs: body], threading the value the body updates. *)
Fixpoint for_each {A S : Type} (xs : list A) (body : A -> S -> M S) (acc : S) : M S :=
  match xs with
  | [] => ret acc
  | x :: rest => do acc' <- body x acc; for_each rest body acc'
  end.

(** The interpreter's exit status for a script whose module body ends in
    the given way: 0 when it finishes, 1 after the traceback of an
    uncaught exception, 130 when a keyboard interrupt ends it. *)
Definition exit_status (o : Outcome unit) : Z :=
  match o with
  | Return _ => 0%Z
  | Raise e => if is_Exception e then 1%Z else 130%Z
  end.

(** ** The script *)

(** The dictionary of [scan_menu]. *)
Definition scan_options : gmap string string :=
  list_to_map
    [ ("1", "-sP");
      ("2", "-sV");
      ("3", "-O");
      ("4", "-sS");
      ("5", "-sV -sC") ].

Section Script.

Variable E : Env.

(** [datetime.now()] *)
Definition datetime_now : M datetime :=
  fun s => (Return (clock E (ticks s)), tick s).

Definition validate_target (target : string) : M bool :=
  try_except
    (do _ip <- call (gethostbyname E target);
     ret true)
    (fun e =>
       if is_socket_error e then
         Some (do _ <- logging_error ("Invalid target: " +:+ target);
               do _ <- print (colored E ("Invalid target: " +:+ target
                                         +:+ ". Please enter a valid IP or domain.")
                                      red []);
               ret false)
       else None).

Definition run_nmap_scan (target options : string) : M (option PortScanner) :=
  (* nm = nmap.PortScanner() stands before the try *)
  do _ <- call (PortScanner_init E);
  try_except
    (do _ <- print (colored E (nl +:+ "Starting Nmap scan on " +:+ target
                               +:+ " with options: " +:+ options) cyan []);
     do nm <- call (scan E target options);
     do _ <- logging_info ("Scan successful on " +:+ target);
     ret (Some nm))
    (* after either handler, control reaches the final [return None] *)
    (fun e =>
       if is_PortScannerError e then
         Some (do _ <- logging_error ("Nmap error: " +:+ exn_str e);
               do _ <- print (colored E ("Nmap scan failed: " +:+ exn_str e) red []);
               ret None)
       else if is_Exception e then
         Some (do _ <- logging_error ("Unexpected error: " +:+ exn_str e);
               do _ <- print (colored E ("Unexpected error: " +:+ exn_str e) red []);
               ret None)
       else None).

(** The body of [for port, state in port_info.items()]. *)
Definition show_port (item : N * string) (result_lines : list string)
  : M (list string) :=
  let port := str_of_N (fst item) in
  let port_state_info := "Port: " +:+ port +:+ tab +:+ "State: " +:+ snd item in
  do _ <- print ("Port: " +:+ colored E port magenta [] +:+ tab
                 +:+ "State: " +:+ colored E (snd item) green []);
  ret (result_lines ++ [port_state_info])%list.

(** The body of [for protocol in nm[host].all_protocols()]. *)
Definition show_protocol (h : HostDict) (protocol : string)
    (result_lines : list string) : M (list string) :=
  let protocol_info := "Protocol: " +:+ protocol in
  do _ <- print (colored E protocol_info blue []);
  for_each (port_items h protocol) show_port (result_lines ++ [protocol_info])%list.

(** The body of [for host in nm.all_hosts()]. *)
Definition show_host (nm : PortScanner) (host : string)
    (result_lines : list string) : M (list string) :=
  let h := getitem nm host in
  let result := nl +:+ "Host: " +:+ host +:+ " (" +:+ hostname h +:+ ")" in
  do _ <- print (colored E result yellow []);
  let state_line := "State: " +:+ state h in
  do _ <- print (colored E state_line green []);
  for_each (all_protocols h) (show_protocol h)
           ((result_lines ++ [result]) ++ [state_line])%list.

(** [nm] is [None] or a [PortScanner]; a [PortScanner] defines neither
    [__bool__] nor [__len__], so [not nm] holds for [None] only. *)
Definition display_scan_results (nm : option PortScanner) (save_to_file : bool)
  : M unit :=
  match nm with
  | None => ret tt
  | Some nm =>
      do result_lines <- for_each (all_hosts nm) (show_host nm) [];
      if save_to_file then
        do now <- datetime_now;
        let filename := "nmap_scan_results_" +:+ strftime_stamp now +:+ ".txt" in
        do _ <- open_write filename (join nl result_lines);
        print (colored E (nl +:+ "Results saved to " +:+ filename) cyan [])
      else ret tt
  end.

Definition scan_menu : M string :=
  do _ <- print (nl +:+ "Select a scan option:");
  do _ <- print "1. Regular scan (-sP) [Ping Scan]";
  do _ <- print "2. Service version detection (-sV)";
  do _ <- print "3. OS detection (-O)";
  do _ <- print "4. Full scan (-sS)";
  do _ <- print "5. Default scan (-sV -sC) [Recommended]";
  do line <- input (nl +:+ "Enter the number corresponding to your choice: ");
  let choice := strip line in
  ret (default "-sV -sC" (scan_options !! choice)).

Definition main : M unit :=
  do _ <- print (colored E (nl +:+ "Welcome to the Nmap Scanner Tool!") cyan [bold]);
  do line <- input (colored E (nl +:+ "Enter target IP address or domain: ") yellow []);
  let target := strip line in
  do valid <- validate_target target;
  if negb valid then ret tt
  else
    do options <- scan_menu;
    do answer <- input (nl +:+ "Do you want to save the results to a file? (yes/no): ");
    let save_option := lower (strip answer) in
    let save_to_file := bool_decide (save_option ∈ ["yes"; "y"]) in
    do _ <- logging_info ("Starting scan on " +:+ target);
    do now <- datetime_now;
    do _ <- print (colored E (nl +:+ "Starting scan on " +:+ target +:+ " at "
                              +:+ str_datetime now) cyan []);
    do nm <- run_nmap_scan target options;
    display_scan_results nm save_to_file.

(** [if __name__ == "__main__": main()]: the status the process ends
    with. *)
Definition script_status (s : State) : Z := exit_status (fst (main s)).

(** What [display_scan_results] collects in [result_lines], as a plain
    function of the scan. *)
Definition port_line (item : N * string) : string :=
  "Port: " +:+ str_of_N (fst item) +:+ tab +:+ "State: " +:+ snd item.

Definition protocol_lines (h : HostDict) (protocol : string) : list string :=
  ("Protocol: " +:+ protocol) :: map port_line (port_items h protocol).

Definition host_lines (nm : PortScanner) (host : string) : list string :=
  let h := getitem nm host in
  (nl +:+ "Host: " +:+ host +:+ " (" +:+ hostname h +:+ ")")
    :: ("State: " +:+ state h)
    :: concat (map (protocol_lines h) (all_protocols h)).

Definition report_lines (nm : PortScanner) : list string :=
  concat (map (host_lines nm) (all_hosts nm)).

(** The same for what it prints. *)
Definition port_print (item : N * string) : string :=
  ("Port: " +:+ colored E (str_of_N (fst item)) magenta [] +:+ tab
   +:+ "State: " +:+ colored E (snd item) green []) +:+ nl.

Definition protocol_prints (h : HostDict) (protocol : string) : list string :=
  (colored E ("Protocol: " +:+ protocol) blue [] +:+ nl)
    :: map port_print (port_items h protocol).

Definition host_prints (nm : PortScanner) (host : string) : list string :=
  let h := getitem nm host in
  (colored E (nl +:+ "Host: " +:+ host +:+ " (" +:+ hostname h +:+ ")") yellow [] +:+ nl)
    :: (colored E ("State: " +:+ state h) green [] +:+ nl)
    :: concat (map (protocol_prints h) (all_protocols h)).

Definition report_prints (nm : PortScanner) : list string :=
  concat (map (host_prints nm) (all_hosts nm)).

End Script.

(** ** Targets the properties speak of

    The script has no parser for addresses or address blocks: it hands the
    whole target to the resolver.  The recognisers below only say which
    strings a property is about. *)

Module Target.

(** One decimal field of a dotted quad: 0..255, no leading zero. *)
Definition is_octet (f : string) : bool :=
  negb (String.eqb f "") && all_chars is_digit f
  && Nat.leb (String.length f) 3
  && (String.eqb f "0" || negb (String.prefix "0" f))
  && N.leb (decimal_value 0 f) 255.

Definition is_ipv4_literal (s : string) : bool :=
  match split_on "." s with
  | [a; b; c; d] => is_octet a && is_octet b && is_octet c && is_octet d
  | _ => false
  end.

(** One field of an IPv6 address: one to four hexadecimal digits. *)
Definition is_hextet (f : string) : bool :=
  negb (String.eqb f "") && Nat.leb (String.length f) 4
  && all_chars is_hex_digit f.

(** The text before and after the first [::], if there is one. *)
Fixpoint cut_double_colon (s : string) : option (string * string) :=
  match s with
  | EmptyString => None
  | String c r =>
      match r with
      | String c' r' =>
          if Ascii.eqb c ":" && Ascii.eqb c' ":" then Some (EmptyString, r')
          else match cut_double_colon r with
               | Some (l, t) => Some (String c l, t)
               | None => None
               end
      | EmptyString => None
      end
  end.

Definition fields (s : string) : list string :=
  if String.eqb s "" then [] else split_on ":" s.

(** Eight fields, or fewer around a single [::]. *)
Definition is_ipv6_literal (s : string) : bool :=
  match cut_double_colon s with
  | None =>
      let g := split_on ":" s in
      Nat.eqb (length g) 8 && forallb is_hextet g
  | Some (l, r) =>
      match cut_double_colon r with
      | Some _ => false
      | None =>
          let g := (fields l ++ fields r)%list in
          Nat.leb (length g) 7 && forallb is_hextet g
      end
  end.

Definition is_ip_literal (s : string) : bool :=
  is_ipv4_literal s || is_ipv6_literal s.

(** An IPv4 block in CIDR notation and the number of addresses it
    expands to. *)
Record cidr_block : Type := { network : string; prefix_len : N }.

Definition cidr_wf (b : cidr_block) : bool :=
  is_ipv4_literal (network b) && N.leb (prefix_len b) 32.

Definition cidr_text (b : cidr_block) : string :=
  network b +:+ "/" +:+ str_of_N (prefix_len b).

Definition cidr_hosts (b : cidr_block) : N := 2 ^ (32 - prefix_len b).

End Target.

Import Target.

(** What the library documentation promises of [socket.gethostbyname] on
    an address: "if the host name is an IPv4 address itself it is returned
    unchanged". *)
Definition returns_ipv4_unchanged (E : Env) : Prop :=
  forall h, is_ipv4_literal h = true -> gethostbyname E h = Return h.

(** ** Concrete environments *)

Module Sample.

Definition esc : string := chr 27.

Definition color_code (c : color) : string :=
  match c with
  | red => "31" | green => "32" | yellow => "33"
  | blue => "34" | magenta => "35" | cyan => "36"
  end.

Definition attr_code (a : attr) : string :=
  match a with bold => "1" end.

(** [termcolor.colored] when colours are on. *)
Definition ansi_colored (text : string) (c : color) (attrs : list attr) : string :=
  fold_left (fun t a => esc +:+ "[" +:+ attr_code a +:+ "m" +:+ t) attrs
            (esc +:+ "[" +:+ color_code c +:+ "m" +:+ text)
  +:+ esc +:+ "[0m".

Fixpoint assoc (k : string) (l : list (string * string)) : option string :=
  match l with
  | [] => None
  | (k', v) :: rest => if String.eqb k k' then Some v else assoc k rest
  end.

(** A resolver over a table of host names, as [gethostbyname] behaves
    with a hosts file: an IPv4 address comes back unchanged, an IPv6
    address is refused (the lookup is made in the IPv4 family only), any
    other text is looked up as a name. *)
Definition inet_gethostbyname (hosts : list (string * string)) (h : string)
  : Outcome string :=
  if is_ipv4_literal h then Return h
  else if is_ipv6_literal h then
    Raise (Exn OSError "[Errno -9] Address family for hostname not supported")
  else match assoc h hosts with
       | Some ip => Return ip
       | None => Raise (Exn OSError "[Errno -2] Name or service not known")
       end.

Definition open_port : string :=
  "{'state': 'open', 'reason': 'syn-ack', 'name': 'http'}".

Definition web_host : HostDict :=
  {| hostname := "localhost";
     state := "up";
     all_protocols := ["tcp"];
     port_items := fun p => if String.eqb p "tcp"
                            then [(80%N, open_port); (443%N, open_port)] else [] |}.

Definition one_host : PortScanner :=
  {| all_hosts := ["127.0.0.1"]; getitem := fun _ => web_host |}.

Definition noon : datetime :=
  {| year := 2024; month := 3; day := 9;
     hour := 12; minute := 5; second := 7; microsecond := 0 |}.

Definition env (hosts : list (string * string)) : Env :=
  {| gethostbyname := inet_gethostbyname hosts;
     PortScanner_init := Return tt;
     scan := fun _ _ => Return one_host;
     colored := ansi_colored;
     clock := fun _ => noon |}.

(** A machine with one name in its hosts table. *)
Definition lan : Env := env [("localhost", "127.0.0.1")].

(** A machine whose hosts table names a block. *)
Definition aliased : Env := env [("10.0.0.0/8", "10.0.0.1")].

(** A machine without the nmap program: [nmap.PortScanner()] raises. *)
Definition no_nmap : Env :=
  {| gethostbyname := inet_gethostbyname [];
     PortScanner_init :=
       Raise (Exn PortScannerError "nmap program was not found in path");
     scan := fun _ _ => Return one_host;
     colored := ansi_colored;
     clock := fun _ => noon |}.

(** A fresh run with the given lines waiting on standard input. *)
Definition start (lines : list string) : State :=
  {| stdin := lines; stdout := []; log := []; files := ∅; ticks := 0 |}.

Definition ten_slash_eight : cidr_block :=
  {| network := "10.0.0.0"; prefix_len := 8 |}.

End Sample.

(** ** Further machines, scans and texts for the properties below *)

Module Cases.

(** The resolver of a machine on which the idna codec, through which
    [socket.gethostbyname] passes every name, refuses a label of more
    than 63 characters with a [UnicodeError]. *)
Definition long_label (h : string) : bool :=
  existsb (fun l => Nat.ltb 63 (String.length l)) (split_on "." h).

Definition idna_gethostbyname (hosts : list (string * string)) (h : string)
  : Outcome string :=
  if long_label h then
    Raise (Exn UnicodeError "encoding with 'idna' codec failed")
  else Sample.inet_gethostbyname hosts h.

Definition idna_strict : Env :=
  {| gethostbyname := idna_gethostbyname [("localhost", "127.0.0.1")];
     PortScanner_init := Return tt;
     scan := fun _ _ => Return Sample.one_host;
     colored := Sample.ansi_colored;
     clock := fun _ => Sample.noon |}.

Definition sixty_four : string :=
  "aaaaaaaaaaaaaaaaaaaaaaaaaaaaaaaaaaaaaaaaaaaaaaaaaaaaaaaaaaaaaaaa".

(** A machine on which every scan ends with the exception [e]. *)
Definition scan_raises (e : exn) : Env :=
  {| gethostbyname := Sample.inet_gethostbyname [("localhost", "127.0.0.1")];
     PortScanner_init := Return tt;
     scan := fun _ _ => Raise e;
     colored := Sample.ansi_colored;
     clock := fun _ => Sample.noon |}.

Definition bad_arguments : exn :=
  Exn PortScannerError "Illegal Argument to -O".

Definition timed_out : exn := Exn OtherException "timed out".

Definition interrupted : exn := Exn KeyboardInterrupt "".

(** A scan that found no host. *)
Definition no_hosts : PortScanner :=
  {| all_hosts := []; getitem := fun _ => Sample.web_host |}.

(** A scan of two hosts, the second without any protocol. *)
Definition silent_host : HostDict :=
  {| hostname := "";
     state := "down";
     all_protocols := [];
     port_items := fun _ => [] |}.

Definition two_hosts : PortScanner :=
  {| all_hosts := ["127.0.0.1"; "192.0.2.7"];
     getitem := fun h => if String.eqb h "127.0.0.1" then Sample.web_host
                         else silent_host |}.

(** A machine with colours off and a clock that advances by one second
    at each reading. *)
Definition ticking (n : nat) : datetime :=
  {| year := 2024; month := 3; day := 9;
     hour := 12; minute := 5; second := N.of_nat n; microsecond := 0 |}.

(** The reading [Sample.noon] a quarter of a second later. *)
Definition noon_and_a_quarter : datetime :=
  {| year := 2024; month := 3; day := 9;
     hour := 12; minute := 5; second := 7; microsecond := 250000 |}.

Definition plain : Env :=
  {| gethostbyname := Sample.inet_gethostbyname [("localhost", "127.0.0.1")];
     PortScanner_init := Return tt;
     scan := fun _ _ => Return two_hosts;
     colored := fun t _ _ => t;
     clock := ticking |}.

End Cases.

(** The line [run_nmap_scan] prints before it scans. *)
Definition scan_banner (E : Env) (target options : string) : string :=
  colored E (nl +:+ "Starting Nmap scan on " +:+ target
             +:+ " with options: " +:+ options) cyan [] +:+ nl.

(** What [scan_menu] writes: the six menu lines and the prompt. *)
Definition menu_texts : list string :=
  [ (nl +:+ "Select a scan option:") +:+ nl;
    "1. Regular scan (-sP) [Ping Scan]" +:+ nl;
    "2. Service version detection (-sV)" +:+ nl;
    "3. OS detection (-O)" +:+ nl;
    "4. Full scan (-sS)" +:+ nl;
    "5. Default scan (-sV -sC) [Recommended]" +:+ nl;
    nl +:+ "Enter the number corresponding to your choice: " ].

(** The texts [main] writes itself. *)
Definition welcome (E : Env) : string :=
  colored E (nl +:+ "Welcome to the Nmap Scanner Tool!") cyan [bold] +:+ nl.

Definition target_prompt (E : Env) : string :=
  colored E (nl +:+ "Enter target IP address or domain: ") yellow [].

Definition save_prompt : string :=
  nl +:+ "Do you want to save the results to a file? (yes/no): ".

Definition start_line (E : Env) (target : string) (now : datetime) : string :=
  colored E (nl +:+ "Starting scan on " +:+ target +:+ " at "
             +:+ str_datetime now) cyan [] +:+ nl.

(** The state in which [main] calls [run_nmap_scan]: three lines read,
    the dialogue written, the start of the scan logged and the clock
    read once. *)
Definition ready (E : Env) (target : string) (rest : list string) (s : State) : State :=
  {| stdin := rest;
     stdout := stdout s ++ [welcome E; target_prompt E] ++ menu_texts
               ++ [save_prompt; start_line E target (clock E (ticks s))];
     log := log s ++ [(INFO, "Starting scan on " +:+ target)];
     files := files s;
     ticks := S (ticks s) |}.

(** The answers to the last question that make [main] save the result. *)
Definition yes_forms : list string :=
  ["y"; "Y"; "yes"; "yeS"; "yEs"; "yES"; "Yes"; "YeS"; "YEs"; "YES"].

(** Dates whose year has four digits and whose other fields have at
    most two, as every reading of the clock between the years 1000 and
    9999 has. *)
Definition four_digit_year (d : datetime) : bool :=
  N.leb 1000 (year d) && N.leb (year d) 9999
  && N.ltb (month d) 100 && N.ltb (day d) 100
  && N.ltb (hour d) 100 && N.ltb (minute d) 100 && N.ltb (second d) 100.

(** The name [display_scan_results] gives the file it saves at [d]. *)
Definition result_file (d : datetime) : string :=
  "nmap_scan_results_" +:+ strftime_stamp d +:+ ".txt".

(** ** States and lists the properties name *)

(** The state a rejected target leaves behind. *)
Definition rejected (E : Env) (target : string) (s : State) : State :=
  write_stdout
    (colored E ("Invalid target: " +:+ target
                +:+ ". Please enter a valid IP or domain.") red [] +:+ nl)
    (append_log (ERROR, "Invalid target: " +:+ target) s).

(** The keys and the values of [scan_options]. *)
Definition menu_keys : list string := ["1"; "2"; "3"; "4"; "5"].

Definition menu_values : list string := ["-sP"; "-sV"; "-O"; "-sS"; "-sV -sC"].

(** Standard output after the texts [ts] have been written, in order. *)
Definition emit (ts : list string) (s : State) : State :=
  {| stdin := stdin s; stdout := stdout s ++ ts; log := log s; files := files s;
     ticks := ticks s |}.

(** * Properties *)

Example strip_choice : strip (" 3" +:+ tab +:+ " ") = "3".
Proof. reflexivity. Qed.

Example lower_yes : lower "YeS" = "yes".
Proof. reflexivity. Qed.

Example zfill_minute : zfill 2 7 = "07".
Proof. reflexivity. Qed.

Example split_quad : split_on "." "192.0.2.1" = ["192"; "0"; "2"; "1"].
Proof. reflexivity. Qed.

Example ipv4_ok : is_ipv4_literal "192.0.2.1" = true.
Proof. reflexivity. Qed.

Example ipv4_leading_zero : is_ipv4_literal "192.0.02.1" = false.
Proof. reflexivity. Qed.

Example ipv4_range : is_ipv4_literal "192.0.2.256" = false.
Proof. reflexivity. Qed.

Example ipv6_loopback : is_ipv6_literal "::1" = true.
Proof. reflexivity. Qed.

Example ipv6_full : is_ipv6_literal "2001:db8:0:0:0:0:0:1" = true.
Proof. reflexivity. Qed.

Example ipv6_two_gaps : is_ipv6_literal "1::2::3" = false.
Proof. reflexivity. Qed.

Example ipv6_triple_colon : is_ipv6_literal "1:::2" = false.
Proof. reflexivity. Qed.

Example ipv6_not_a_name : is_ipv6_literal "localhost" = false.
Proof. reflexivity. Qed.

Example cidr_text_sample : cidr_text Sample.ten_slash_eight = "10.0.0.0/8".
Proof. reflexivity. Qed.

Example cidr_hosts_sample : cidr_hosts Sample.ten_slash_eight = 16777216%N.
Proof. reflexivity. Qed.

Example stamp_noon : strftime_stamp Sample.noon = "20240309_120507".
Proof. reflexivity. Qed.

Example str_noon : str_datetime Sample.noon = "2024-03-09 12:05:07".
Proof. reflexivity. Qed.

Example scan_options_1 : scan_options !! "1" = Some "-sP".
Proof. vm_compute. reflexivity. Qed.

(** ** The monad's equations *)

Lemma bind_Return {A B} (m : M A) (k : A -> M B) s a s' :
  m s = (Return a, s') -> bind m k s = k a s'.
Proof. intros H. unfold bind. rewrite H. reflexivity. Qed.

Lemma bind_Raise {A B} (m : M A) (k : A -> M B) s e s' :
  m s = (Raise e, s') -> bind m k s = (Raise e, s').
Proof. intros H. unfold bind. rewrite H. reflexivity. Qed.

(** ** validate_target *)

Lemma validate_target_eq (E : Env) (target : string) (s : State) :
  validate_target E target s =
    match gethostbyname E target with
    | Return _ => (Return true, s)
    | Raise e =>
        if is_socket_error e then (Return false, rejected E target s)
        else (Raise e, s)
    end.
Proof.
  unfold validate_target, try_except, bind, call, ret.
  destruct (gethostbyname E target) as [ip | e]; [reflexivity |].
  destruct (is_socket_error e); reflexivity.
Qed.

(** An exception that is not a [socket.error] passes through the
    validator. *)
Lemma validate_target_passes_other_errors (E : Env) (target : string) (s : State) e :
  gethostbyname E target = Raise e ->
  is_socket_error e = false ->
  validate_target E target s = (Raise e, s).
Proof. intros Hres Hcls. rewrite validate_target_eq, Hres, Hcls. reflexivity. Qed.

(** Case analysis on what the resolver does with the target. *)
Ltac by_resolution :=
  rewrite validate_target_eq;
  match goal with
  | |- context [gethostbyname ?E ?t] =>
      let e := fresh "e" in
      destruct (gethostbyname E t) as [? | e] eqn:?;
      [| destruct (is_socket_error e) eqn:?]
  end;
  simpl; repeat split; intros;
  repeat match goal with
         | H : exists _, _ |- _ => destruct H
         | H : _ /\ _ |- _ => destruct H
         end;
  try discriminate; try congruence; eauto.

(** C1. The validator returns [True] exactly when resolving the target
    succeeds, and returns [False] exactly when the resolution raises a
    [socket.error]. *)
Theorem validate_target_follows_resolution (E : Env) (target : string) (s : State) :
  (fst (validate_target E target s) = Return true
     <-> exists ip, gethostbyname E target = Return ip)
  /\ (fst (validate_target E target s) = Return false
     <-> exists e, gethostbyname E target = Raise e /\ is_socket_error e = true).
Proof. by_resolution. Qed.

(** C8 as stated fails: a target that does not resolve adds a record to
    the log and a line to standard output. *)
Lemma validate_target_writes_on_failure :
  ~ (forall (E : Env) (target : string) (s : State),
       log (snd (validate_target E target s)) = log s
       /\ stdout (snd (validate_target E target s)) = stdout s
       /\ files (snd (validate_target E target s)) = files s).
Proof.
  intros H.
  destruct (H Sample.lan "no-such-host.invalid" (Sample.start [])) as [Hlog _].
  vm_compute in Hlog. discriminate.
Qed.

(** C8, amended. The validator never touches a file, standard input or
    the clock.  When it returns [True], and when an exception other than
    [socket.error] passes through it, the state is unchanged; when it
    returns [False] it has appended the record [ERROR, Invalid target:
    <target>] to the log and printed one red line to standard output, and
    nothing else. *)
Theorem validate_target_effects (E : Env) (target : string) (s : State) :
  files (snd (validate_target E target s)) = files s
  /\ stdin (snd (validate_target E target s)) = stdin s
  /\ ticks (snd (validate_target E target s)) = ticks s
  /\ match fst (validate_target E target s) with
     | Return false =>
         log (snd (validate_target E target s))
           = (log s ++ [(ERROR, "Invalid target: " +:+ target)])%list
         /\ stdout (snd (validate_target E target s))
           = (stdout s
              ++ [colored E ("Invalid target: " +:+ target
                             +:+ ". Please enter a valid IP or domain.") red []
                  +:+ nl])%list
     | _ => snd (validate_target E target s) = s
     end.
Proof.
  rewrite validate_target_eq.
  destruct (gethostbyname E target) as [ip | e]; simpl.
  - repeat split.
  - destruct (is_socket_error e); simpl; repeat split.
Qed.

(** C7 as stated fails: [::1] is a valid literal address, and the
    resolver, which works in the IPv4 family only, refuses it. *)
Lemma validate_target_rejects_ipv6_literal :
  ~ (forall (E : Env) (target : string) (s : State),
       returns_ipv4_unchanged E ->
       is_ip_literal target = true ->
       fst (validate_target E target s) = Return true).
Proof.
  intros H.
  assert (Hc : returns_ipv4_unchanged Sample.lan).
  { intros h Hh. simpl. unfold Sample.inet_gethostbyname. rewrite Hh. reflexivity. }
  specialize (H Sample.lan "::1" (Sample.start []) Hc eq_refl).
  vm_compute in H. discriminate.
Qed.

(** C7, amended. For every valid literal IPv4 address the validator
    returns [True], without a resolution error and without changing the
    state. *)
Theorem validate_target_accepts_ipv4_literal
    (E : Env) (target : string) (s : State) :
  returns_ipv4_unchanged E ->
  is_ipv4_literal target = true ->
  validate_target E target s = (Return true, s).
Proof.
  intros Hc Hlit. rewrite validate_target_eq, (Hc target Hlit). reflexivity.
Qed.

Lemma sample_returns_ipv4_unchanged (hosts : list (string * string)) :
  returns_ipv4_unchanged (Sample.env hosts).
Proof.
  intros h Hh. simpl. unfold Sample.inet_gethostbyname. rewrite Hh. reflexivity.
Qed.

Lemma validate_target_accepts_ipv4_literal_witness :
  returns_ipv4_unchanged Sample.lan
  /\ is_ipv4_literal "192.0.2.1" = true
  /\ validate_target Sample.lan "192.0.2.1" (Sample.start [])
     = (Return true, Sample.start []).
Proof.
  split; [apply sample_returns_ipv4_unchanged |].
  split; [reflexivity |].
  apply (validate_target_accepts_ipv4_literal Sample.lan "192.0.2.1" (Sample.start [])).
  - apply sample_returns_ipv4_unchanged.
  - reflexivity.
Defined.

(** C4 as stated fails: the script has no cap and no expansion.  On a
    machine whose hosts table names the text [10.0.0.0/8], the block of
    16777216 addresses passes validation whatever cap one has in mind. *)
Lemma validate_target_accepts_large_cidr :
  ~ (forall (E : Env) (cap : N) (b : cidr_block) (s : State),
       cidr_wf b = true ->
       (cap < cidr_hosts b)%N ->
       fst (validate_target E (cidr_text b) s) = Return false).
Proof.
  intros H.
  specialize (H Sample.aliased 256%N Sample.ten_slash_eight (Sample.start [])
                eq_refl eq_refl).
  vm_compute in H. discriminate.
Qed.

(** C4, amended. A CIDR block of any size is treated as any other target
    text: the validator rejects it exactly when resolving that text
    raises a [socket.error], and accepts it exactly when the text
    resolves; the number of addresses in the block plays no part. *)
Theorem validate_target_cidr_by_resolution
    (E : Env) (b : cidr_block) (s : State) :
  (fst (validate_target E (cidr_text b) s) = Return false
     <-> exists e, gethostbyname E (cidr_text b) = Raise e
                   /\ is_socket_error e = true)
  /\ (fst (validate_target E (cidr_text b) s) = Return true
     <-> exists ip, gethostbyname E (cidr_text b) = Return ip).
Proof.
  by_resolution.
Qed.

Example one_address_block_rejected :
  cidr_hosts {| network := "10.0.0.1"; prefix_len := 32 |} = 1%N
  /\ fst (validate_target Sample.lan "10.0.0.1/32" (Sample.start [])) = Return false.
Proof. split; vm_compute; reflexivity. Qed.

(** ** run_nmap_scan *)

Lemma run_nmap_scan_init_raises (E : Env) (target options : string) (s : State) e :
  PortScanner_init E = Raise e ->
  run_nmap_scan E target options s = (Raise e, s).
Proof.
  intros Hinit. unfold run_nmap_scan.
  apply bind_Raise. unfold call. rewrite Hinit. reflexivity.
Qed.

(** Once the scanner object exists, every [Exception] raised by the scan
    ends in [None]: a [PortScannerError] through the first handler, any
    other through the generic one. *)
Lemma run_nmap_scan_scan_raises (E : Env) (target options : string) (s : State) e :
  PortScanner_init E = Return tt ->
  scan E target options = Raise e ->
  is_Exception e = true ->
  fst (run_nmap_scan E target options s) = Return None
  /\ log (snd (run_nmap_scan E target options s))
     = (log s ++ [(ERROR, (if is_PortScannerError e then "Nmap error: "
                           else "Unexpected error: ") +:+ exn_str e)])%list.
Proof.
  intros Hinit Hscan Hexc.
  unfold run_nmap_scan, bind, try_except, call, print, logging_error, ret.
  rewrite Hinit. simpl. rewrite Hscan. simpl.
  destruct (is_PortScannerError e); simpl; [split; reflexivity |].
  rewrite Hexc. simpl. split; reflexivity.
Qed.

(** A keyboard interrupt during the scan is no [Exception]: neither
    handler takes it. *)
Lemma run_nmap_scan_interrupted (E : Env) (target options : string) (s : State) e :
  PortScanner_init E = Return tt ->
  scan E target options = Raise e ->
  is_Exception e = false ->
  fst (run_nmap_scan E target options s) = Raise e.
Proof.
  intros Hinit Hscan Hexc.
  unfold run_nmap_scan, bind, try_except, call, print, ret.
  rewrite Hinit. simpl. rewrite Hscan. simpl.
  destruct e as [[] msg]; try discriminate. reflexivity.
Qed.

Lemma run_nmap_scan_success (E : Env) (target options : string) (s : State) nm :
  PortScanner_init E = Return tt ->
  scan E target options = Return nm ->
  fst (run_nmap_scan E target options s) = Return (Some nm).
Proof.
  intros Hinit Hscan.
  unfold run_nmap_scan, bind, try_except, call, print, logging_info, ret.
  rewrite Hinit. simpl. rewrite Hscan. reflexivity.
Qed.

(** C2, at the input where it fails. On a machine without the nmap
    program [nmap.PortScanner()] raises [PortScannerError]; the call
    stands before the [try], so the exception leaves [run_nmap_scan]:
    nothing is printed or logged and no [None] is returned. *)
Theorem run_nmap_scan_propagates_init_error :
  run_nmap_scan Sample.no_nmap "127.0.0.1" "-sV" (Sample.start [])
  = (Raise (Exn PortScannerError "nmap program was not found in path"),
     Sample.start []).
Proof. apply run_nmap_scan_init_raises. reflexivity. Qed.

(** ** scan_menu *)

Lemma scan_menu_eq (s : State) line rest :
  stdin s = line :: rest ->
  fst (scan_menu s) = Return (default "-sV -sC" (scan_options !! strip line)).
Proof.
  intros Hin. unfold scan_menu, bind, print, input, ret.
  cbn [fst snd stdin write_stdout]. rewrite Hin. reflexivity.
Qed.

Lemma scan_options_value (k v : string) :
  scan_options !! k = Some v -> v ∈ menu_values.
Proof.
  intros Hk. apply elem_of_list_to_map_2 in Hk.
  unfold menu_values.
  repeat (apply elem_of_cons in Hk as [Hk | Hk];
          [injection Hk as -> ->; repeat constructor |]).
  apply elem_of_nil in Hk. destruct Hk.
Qed.

Lemma scan_options_miss (k : string) :
  k ∉ menu_keys -> scan_options !! k = None.
Proof.
  intros Hk. apply not_elem_of_list_to_map_1. exact Hk.
Qed.

(** The dictionary as a function of the key. *)
Lemma scan_options_lookup (k : string) :
  scan_options !! k
  = if String.eqb k "1" then Some "-sP"
    else if String.eqb k "2" then Some "-sV"
    else if String.eqb k "3" then Some "-O"
    else if String.eqb k "4" then Some "-sS"
    else if String.eqb k "5" then Some "-sV -sC"
    else None.
Proof.
  repeat match goal with
         | |- context [String.eqb k ?c] =>
             destruct (String.eqb_spec k c) as [-> | ?]; [vm_compute; reflexivity |]
         end.
  apply scan_options_miss. unfold menu_keys.
  intros Hin. repeat (apply elem_of_cons in Hin as [Hin | Hin]; [congruence |]).
  apply elem_of_nil in Hin. destruct Hin.
Qed.

(** C5. The five menu entries map to [-sP], [-sV], [-O], [-sS] and
    [-sV -sC], and for every line the user enters [scan_menu] returns one
    string: the one the dictionary gives for the entered choice ([-sP]
    for [1], [-sV] for [2], [-O] for [3], [-sS] for [4], [-sV -sC] for
    [5] and for anything else), which is therefore one of these five. *)
Theorem scan_menu_one_option (s : State) (line : string) (rest : list string) :
  stdin s = line :: rest ->
  (scan_options !! "1" = Some "-sP"
   /\ scan_options !! "2" = Some "-sV"
   /\ scan_options !! "3" = Some "-O"
   /\ scan_options !! "4" = Some "-sS"
   /\ scan_options !! "5" = Some "-sV -sC")
  /\ (exists opt, fst (scan_menu s) = Return opt /\ opt ∈ menu_values)
  /\ fst (scan_menu s)
     = Return (if String.eqb (strip line) "1" then "-sP"
               else if String.eqb (strip line) "2" then "-sV"
               else if String.eqb (strip line) "3" then "-O"
               else if String.eqb (strip line) "4" then "-sS"
               else "-sV -sC").
Proof.
  intros Hin. split; [| split].
  - repeat split; vm_compute; reflexivity.
  - rewrite (scan_menu_eq s line rest Hin).
    destruct (scan_options !! strip line) as [v |] eqn:Hk; simpl.
    + exists v. split; [reflexivity |]. exact (scan_options_value _ _ Hk).
    + exists "-sV -sC". split; [reflexivity |]. unfold menu_values.
      repeat constructor.
  - rewrite (scan_menu_eq s line rest Hin), scan_options_lookup.
    repeat match goal with
           | |- context [String.eqb (strip line) ?c] =>
               destruct (String.eqb (strip line) c); [reflexivity |]
           end.
    reflexivity.
Qed.

Lemma scan_menu_one_option_witness :
  (scan_options !! "1" = Some "-sP"
   /\ scan_options !! "2" = Some "-sV"
   /\ scan_options !! "3" = Some "-O"
   /\ scan_options !! "4" = Some "-sS"
   /\ scan_options !! "5" = Some "-sV -sC")
  /\ (exists opt, fst (scan_menu (Sample.start [" 4 "])) = Return opt
                  /\ opt ∈ menu_values)
  /\ fst (scan_menu (Sample.start [" 4 "])) = Return "-sS".
Proof.
  apply (scan_menu_one_option (Sample.start [" 4 "]) " 4 " []).
  reflexivity.
Defined.

(** C9. When the choice, the entered line without surrounding white
    space, is none of [1] to [5] (the empty string included),
    [scan_menu] returns [-sV -sC]. *)
Theorem scan_menu_default (s : State) (line : string) (rest : list string) :
  stdin s = line :: rest ->
  strip line ∉ menu_keys ->
  fst (scan_menu s) = Return "-sV -sC".
Proof.
  intros Hin Hk. rewrite (scan_menu_eq s line rest Hin).
  rewrite (scan_options_miss _ Hk). reflexivity.
Qed.

Lemma scan_menu_default_witness :
  fst (scan_menu (Sample.start [""; "yes"])) = Return "-sV -sC".
Proof.
  apply (scan_menu_default (Sample.start [""; "yes"]) "" ["yes"]).
  - reflexivity.
  - apply (bool_decide_unpack _). vm_compute. exact I.
Defined.

Example scan_menu_syn : fst (scan_menu (Sample.start [" 4 "])) = Return "-sS".
Proof. vm_compute. reflexivity. Qed.

Example scan_menu_text : fst (scan_menu (Sample.start ["full"])) = Return "-sV -sC".
Proof. vm_compute. reflexivity. Qed.

Example scan_menu_eof :
  fst (scan_menu (Sample.start []))
  = Raise (Exn EOFError "EOF when reading a line").
Proof. vm_compute. reflexivity. Qed.

(** ** display_scan_results *)

Lemma emit_nil (s : State) : emit [] s = s.
Proof. destruct s. unfold emit. simpl. rewrite app_nil_r. reflexivity. Qed.

Lemma emit_emit (a b : list string) (s : State) :
  emit b (emit a s) = emit (a ++ b) s.
Proof. unfold emit. simpl. rewrite app_assoc. reflexivity. Qed.

Lemma write_stdout_emit (t : string) (s : State) : write_stdout t s = emit [t] s.
Proof. reflexivity. Qed.

Lemma for_each_cons {A S : Type} (x : A) (xs : list A) (body : A -> S -> M S)
    (acc acc' : S) (s s' : State) :
  body x acc s = (Return acc', s') ->
  for_each (x :: xs) body acc s = for_each xs body acc' s'.
Proof. intros H. simpl. apply bind_Return. exact H. Qed.

Section Report.

Variable E : Env.

Lemma ports_loop (items : list (N * string)) :
  forall (acc : list string) (s : State),
    for_each items (show_port E) acc s
    = (Return (acc ++ map port_line items), emit (map (port_print E) items) s).
Proof.
  induction items as [| item items IH]; intros acc s.
  - simpl. rewrite app_nil_r, emit_nil. reflexivity.
  - rewrite (for_each_cons _ _ _ _ (acc ++ [port_line item])
                           _ (emit [port_print E item] s)); [| reflexivity].
    rewrite IH, emit_emit, <- app_assoc. reflexivity.
Qed.

Lemma protocols_loop (h : HostDict) (protocols : list string) :
  forall (acc : list string) (s : State),
    for_each protocols (show_protocol E h) acc s
    = (Return (acc ++ concat (map (protocol_lines h) protocols)),
       emit (concat (map (protocol_prints E h) protocols)) s).
Proof.
  induction protocols as [| p protocols IH]; intros acc s.
  - simpl. rewrite app_nil_r, emit_nil. reflexivity.
  - rewrite (for_each_cons _ _ _ _ (acc ++ protocol_lines h p)
                           _ (emit (protocol_prints E h p) s)).
    + rewrite IH, emit_emit, <- app_assoc. reflexivity.
    + unfold show_protocol.
      rewrite (bind_Return _ _ _ tt
                 (emit [colored E ("Protocol: " +:+ p) blue [] +:+ nl] s));
        [| reflexivity].
      rewrite ports_loop, emit_emit, <- app_assoc. reflexivity.
Qed.

Lemma hosts_loop (nm : PortScanner) (hosts : list string) :
  forall (acc : list string) (s : State),
    for_each hosts (show_host E nm) acc s
    = (Return (acc ++ concat (map (host_lines nm) hosts)),
       emit (concat (map (host_prints E nm) hosts)) s).
Proof.
  induction hosts as [| host hosts IH]; intros acc s.
  - simpl. rewrite app_nil_r, emit_nil. reflexivity.
  - rewrite (for_each_cons _ _ _ _ (acc ++ host_lines nm host)
                           _ (emit (host_prints E nm host) s)).
    + rewrite IH, emit_emit, <- app_assoc. reflexivity.
    + unfold show_host, bind, print. cbn [fst snd].
      rewrite protocols_loop, !write_stdout_emit, !emit_emit.
      unfold host_lines, host_prints. rewrite <- !app_assoc. reflexivity.
Qed.

Lemma display_scan_results_eq (nm : PortScanner) (save_to_file : bool) (s : State) :
  display_scan_results E (Some nm) save_to_file s
  = if save_to_file then
      let filename :=
        "nmap_scan_results_" +:+ strftime_stamp (clock E (ticks s)) +:+ ".txt" in
      (Return tt,
       emit [colored E (nl +:+ "Results saved to " +:+ filename) cyan [] +:+ nl]
            (write_file filename (join nl (report_lines nm))
                        (tick (emit (report_prints E nm) s))))
    else (Return tt, emit (report_prints E nm) s).
Proof.
  unfold display_scan_results.
  rewrite (bind_Return _ _ _ (report_lines nm) (emit (report_prints E nm) s));
    [| apply (hosts_loop nm (all_hosts nm) [] s)].
  destruct save_to_file; reflexivity.
Qed.

End Report.

(** Where colours are off, what is printed is each collected line with
    its newline. *)
Lemma report_prints_plain (E : Env) (nm : PortScanner) :
  (forall t c a, colored E t c a = t) ->
  report_prints E nm = map (fun l => l +:+ nl) (report_lines nm).
Proof.
  intros Hplain. unfold report_prints, report_lines.
  rewrite concat_map, map_map. f_equal. apply map_ext. intros host.
  unfold host_prints, host_lines. cbn [map]. rewrite !Hplain. do 2 f_equal.
  rewrite concat_map, map_map. f_equal. apply map_ext. intros protocol.
  unfold protocol_prints, protocol_lines. cbn [map]. rewrite Hplain. f_equal.
  rewrite map_map. apply map_ext. intros item.
  unfold port_print, port_line. rewrite !Hplain. reflexivity.
Qed.

(** C6. With a scan result and saving requested, [display_scan_results]
    writes the lines it has collected for display, joined by newlines, to
    the file [nmap_scan_results_<timestamp>.txt], the timestamp being the
    clock reading formatted as [%Y%m%d_%H%M%S]; the lines are printed and
    the file name is announced.  With saving not requested no file is
    written, whatever the result. *)
Theorem display_scan_results_saves (E : Env) (nm : PortScanner) (s : State) :
  let filename :=
    "nmap_scan_results_" +:+ strftime_stamp (clock E (ticks s)) +:+ ".txt" in
  (fst (display_scan_results E (Some nm) true s) = Return tt
   /\ files (snd (display_scan_results E (Some nm) true s))
      = <[filename := join nl (report_lines nm)]> (files s)
   /\ stdout (snd (display_scan_results E (Some nm) true s))
      = (stdout s ++ report_prints E nm
         ++ [colored E (nl +:+ "Results saved to " +:+ filename) cyan [] +:+ nl])%list)
  /\ (forall o : option PortScanner,
        fst (display_scan_results E o false s) = Return tt
        /\ files (snd (display_scan_results E o false s)) = files s)
  /\ stdout (snd (display_scan_results E (Some nm) false s))
     = (stdout s ++ report_prints E nm)%list.
Proof.
  intros filename. split; [| split].
  - rewrite display_scan_results_eq. simpl.
    repeat split. rewrite <- app_assoc. reflexivity.
  - intros [nm' |]; [| split; reflexivity].
    rewrite display_scan_results_eq. split; reflexivity.
  - rewrite display_scan_results_eq. reflexivity.
Qed.

Example saved_text :
  files (snd (display_scan_results Sample.lan (Some Sample.one_host) true
                                   (Sample.start [])))
    !! "nmap_scan_results_20240309_120507.txt"
  = Some (nl +:+ "Host: 127.0.0.1 (localhost)" +:+ nl
          +:+ "State: up" +:+ nl
          +:+ "Protocol: tcp" +:+ nl
          +:+ "Port: 80" +:+ tab +:+ "State: " +:+ Sample.open_port +:+ nl
          +:+ "Port: 443" +:+ tab +:+ "State: " +:+ Sample.open_port).
Proof. vm_compute. reflexivity. Qed.

(** C10. Called with [None], [display_scan_results] returns at once:
    nothing is printed, no file is written and the state is the one it
    was called in, also when [save_to_file] is [True]. *)
Theorem display_scan_results_none (E : Env) (save_to_file : bool) (s : State) :
  display_scan_results E None save_to_file s = (Return tt, s).
Proof. reflexivity. Qed.

(** ** main and the exit status *)

Lemma exit_status_zero (o : Outcome unit) :
  exit_status o = 0%Z <-> exists u, o = Return u.
Proof.
  destruct o as [u | e]; simpl.
  - split; [intros _; exists u; reflexivity | reflexivity].
  - split.
    + destruct (is_Exception e); discriminate.
    + intros (u & Hu). discriminate.
Qed.

Lemma main_invalid_target (E : Env) (s : State) line rest e :
  stdin s = line :: rest ->
  gethostbyname E (strip line) = Raise e ->
  is_socket_error e = true ->
  fst (main E s) = Return tt.
Proof.
  intros Hin Hres Hcls. unfold main.
  rewrite (bind_Return _ _ _ tt
             (emit [colored E (nl +:+ "Welcome to the Nmap Scanner Tool!") cyan [bold]
                    +:+ nl] s)); [| reflexivity].
  rewrite (bind_Return _ _ _ line
             (set_stdin rest
                (emit [colored E (nl +:+ "Enter target IP address or domain: ")
                               yellow []]
                   (emit [colored E (nl +:+ "Welcome to the Nmap Scanner Tool!")
                                  cyan [bold] +:+ nl] s)))).
  - unfold bind. rewrite validate_target_eq, Hres, Hcls. reflexivity.
  - unfold input. cbn [stdin emit]. rewrite Hin. reflexivity.
Qed.

(** C3 as stated fails: after a target that does not resolve, [main]
    returns and the process ends with status 0. *)
Lemma invalid_target_exits_zero :
  ~ (forall (E : Env) (s : State) (line : string) (rest : list string),
       stdin s = line :: rest ->
       (forall s1, fst (validate_target E (strip line) s1) = Return false) ->
       script_status E s <> 0%Z).
Proof.
  intros H.
  apply (H Sample.lan (Sample.start ["no-such-host.invalid"])
           "no-such-host.invalid" []).
  - reflexivity.
  - intros s1. rewrite validate_target_eq. vm_compute. reflexivity.
  - vm_compute. reflexivity.
Qed.

(** C3, amended. The exit status is 0 exactly when [main] returns, and
    [main] returns when the entered target fails validation: the status
    is 0 in that case too.  A nonzero status arises only from an
    exception that leaves [main]. *)
Theorem script_status_invalid_target
    (E : Env) (s : State) (line : string) (rest : list string) (e : exn) :
  stdin s = line :: rest ->
  gethostbyname E (strip line) = Raise e ->
  is_socket_error e = true ->
  (fst (main E s) = Return tt /\ script_status E s = 0%Z)
  /\ (forall s2, script_status E s2 = 0%Z <-> exists u, fst (main E s2) = Return u).
Proof.
  intros Hin Hres Hcls. split.
  - unfold script_status.
    rewrite (main_invalid_target E s line rest e Hin Hres Hcls).
    split; reflexivity.
  - intros s2. apply exit_status_zero.
Qed.

Lemma script_status_invalid_target_witness :
  (fst (main Sample.lan (Sample.start ["no-such-host.invalid"])) = Return tt
   /\ script_status Sample.lan (Sample.start ["no-such-host.invalid"]) = 0%Z)
  /\ (forall s2, script_status Sample.lan s2 = 0%Z
                 <-> exists u, fst (main Sample.lan s2) = Return u).
Proof.
  apply (script_status_invalid_target
           Sample.lan (Sample.start ["no-such-host.invalid"])
           "no-such-host.invalid" []
           (Exn OSError "[Errno -2] Name or service not known")).
  - reflexivity.
  - vm_compute. reflexivity.
  - reflexivity.
Defined.

Example full_run_status :
  script_status Sample.lan (Sample.start ["localhost"; "2"; "no"]) = 0%Z.
Proof. vm_compute. reflexivity. Qed.

Example full_run_log :
  log (snd (main Sample.lan (Sample.start [" localhost "; "2"; "Y"])))
  = [(INFO, "Starting scan on localhost"); (INFO, "Scan successful on localhost")].
Proof. vm_compute. reflexivity. Qed.

Example no_nmap_status :
  script_status Sample.no_nmap (Sample.start ["127.0.0.1"; "2"; "no"]) = 1%Z.
Proof. vm_compute. reflexivity. Qed.

Example eof_status : script_status Sample.lan (Sample.start []) = 1%Z.
Proof. vm_compute. reflexivity. Qed.

(** * Further properties of the script *)

(** ** run_nmap_scan, path by path *)

Lemma run_nmap_scan_eq (E : Env) (target options : string) (s : State) :
  run_nmap_scan E target options s =
    match PortScanner_init E with
    | Raise e => (Raise e, s)
    | Return _ =>
        let s1 := emit [scan_banner E target options] s in
        match scan E target options with
        | Return nm =>
            (Return (Some nm), append_log (INFO, "Scan successful on " +:+ target) s1)
        | Raise e =>
            if is_PortScannerError e then
              (Return None,
               emit [colored E ("Nmap scan failed: " +:+ exn_str e) red [] +:+ nl]
                    (append_log (ERROR, "Nmap error: " +:+ exn_str e) s1))
            else if is_Exception e then
              (Return None,
               emit [colored E ("Unexpected error: " +:+ exn_str e) red [] +:+ nl]
                    (append_log (ERROR, "Unexpected error: " +:+ exn_str e) s1))
            else (Raise e, s1)
        end
    end.
Proof.
  unfold run_nmap_scan, bind, try_except, call, print, logging_info,
    logging_error, ret.
  destruct (PortScanner_init E) as [u | e0]; [| reflexivity].
  cbn [fst snd]. destruct (scan E target options) as [nm | e]; [reflexivity |].
  destruct (is_PortScannerError e); [reflexivity |].
  destruct (is_Exception e); reflexivity.
Qed.

(** X1. Whatever the scanner does, [run_nmap_scan] leaves the files,
    standard input and the clock alone, adds at most one record to the
    log and writes at most two texts to standard output. *)
Theorem run_nmap_scan_frame (E : Env) (target options : string) (s : State) :
  let s' := snd (run_nmap_scan E target options s) in
  files s' = files s /\ stdin s' = stdin s /\ ticks s' = ticks s
  /\ (exists added, log s' = log s ++ added /\ length added <= 1)
  /\ (exists written, stdout s' = stdout s ++ written /\ length written <= 2).
Proof.
  cbv zeta. rewrite run_nmap_scan_eq.
  destruct (PortScanner_init E) as [u | e0]; cbn [snd].
  - destruct (scan E target options) as [nm | e];
      [| destruct (is_PortScannerError e); [| destruct (is_Exception e)]];
      cbn; repeat split;
      try (eexists; split; [reflexivity | cbn; lia]);
      try (exists []; split; [rewrite app_nil_r; reflexivity | cbn; lia]);
      try (eexists; split; [rewrite <- app_assoc; reflexivity | cbn; lia]).
  - repeat split; exists []; (split; [rewrite app_nil_r; reflexivity | cbn; lia]).
Qed.

(** X2. The log tells how [run_nmap_scan] ended: a scanner object comes
    back only together with the INFO record [Scan successful on
    <target>], [None] only together with one ERROR record, and an
    exception that leaves the function leaves the log as it was. *)
Theorem run_nmap_scan_log_matches_result
    (E : Env) (target options : string) (s : State) :
  match fst (run_nmap_scan E target options s) with
  | Return (Some _) =>
      log (snd (run_nmap_scan E target options s))
      = log s ++ [(INFO, "Scan successful on " +:+ target)]
  | Return None =>
      exists msg, log (snd (run_nmap_scan E target options s))
                  = log s ++ [(ERROR, msg)]
  | Raise _ => log (snd (run_nmap_scan E target options s)) = log s
  end.
Proof.
  rewrite run_nmap_scan_eq.
  destruct (PortScanner_init E) as [u | e0]; [| reflexivity].
  destruct (scan E target options) as [nm | e]; [reflexivity |].
  cbv zeta.
  destruct (is_PortScannerError e); [eexists; reflexivity |].
  destruct (is_Exception e); [eexists; reflexivity | reflexivity].
Qed.

(** X3. When the scanner object can be built and the scan returns,
    [run_nmap_scan] returns the scanner, having printed the banner and
    logged the success, and nothing else. *)
Theorem run_nmap_scan_returns_scanner
    (E : Env) (target options : string) (s : State) (nm : PortScanner) :
  PortScanner_init E = Return tt ->
  scan E target options = Return nm ->
  run_nmap_scan E target options s
  = (Return (Some nm),
     append_log (INFO, "Scan successful on " +:+ target)
                (emit [scan_banner E target options] s)).
Proof.
  intros Hinit Hscan. rewrite run_nmap_scan_eq, Hinit, Hscan. reflexivity.
Qed.

Lemma run_nmap_scan_returns_scanner_witness :
  run_nmap_scan Sample.lan "localhost" "-sV" (Sample.start [])
  = (Return (Some Sample.one_host),
     append_log (INFO, "Scan successful on localhost")
                (emit [scan_banner Sample.lan "localhost" "-sV"] (Sample.start []))).
Proof.
  apply (run_nmap_scan_returns_scanner Sample.lan "localhost" "-sV"
           (Sample.start []) Sample.one_host); reflexivity.
Defined.

(** X4. A [PortScannerError] raised by the scan is taken by the first
    handler: the function returns [None], the log gains the record
    [ERROR, Nmap error: <e>] and standard output gains, after the banner,
    the red line [Nmap scan failed: <e>]. *)
Theorem run_nmap_scan_nmap_error
    (E : Env) (target options : string) (s : State) (e : exn) :
  PortScanner_init E = Return tt ->
  scan E target options = Raise e ->
  is_PortScannerError e = true ->
  fst (run_nmap_scan E target options s) = Return None
  /\ log (snd (run_nmap_scan E target options s))
     = log s ++ [(ERROR, "Nmap error: " +:+ exn_str e)]
  /\ stdout (snd (run_nmap_scan E target options s))
     = stdout s ++ [scan_banner E target options;
                    colored E ("Nmap scan failed: " +:+ exn_str e) red [] +:+ nl].
Proof.
  intros Hinit Hscan Hcls. rewrite run_nmap_scan_eq, Hinit, Hscan. cbv zeta.
  rewrite Hcls. cbn. rewrite <- app_assoc. repeat split.
Qed.

Lemma run_nmap_scan_nmap_error_witness :
  fst (run_nmap_scan (Cases.scan_raises Cases.bad_arguments) "localhost" "-O"
                     (Sample.start [])) = Return None
  /\ log (snd (run_nmap_scan (Cases.scan_raises Cases.bad_arguments) "localhost" "-O"
                             (Sample.start [])))
     = log (Sample.start []) ++ [(ERROR, "Nmap error: " +:+ exn_str Cases.bad_arguments)]
  /\ stdout (snd (run_nmap_scan (Cases.scan_raises Cases.bad_arguments) "localhost" "-O"
                                (Sample.start [])))
     = stdout (Sample.start [])
       ++ [scan_banner (Cases.scan_raises Cases.bad_arguments) "localhost" "-O";
           colored (Cases.scan_raises Cases.bad_arguments)
                   ("Nmap scan failed: " +:+ exn_str Cases.bad_arguments) red []
           +:+ nl].
Proof.
  apply (run_nmap_scan_nmap_error (Cases.scan_raises Cases.bad_arguments)
           "localhost" "-O" (Sample.start []) Cases.bad_arguments); reflexivity.
Defined.

(** X5. Any other [Exception] raised by the scan is taken by the generic
    handler: the function returns [None], the log gains the record
    [ERROR, Unexpected error: <e>] and standard output gains, after the
    banner, the red line [Unexpected error: <e>]. *)
Theorem run_nmap_scan_unexpected_error
    (E : Env) (target options : string) (s : State) (e : exn) :
  PortScanner_init E = Return tt ->
  scan E target options = Raise e ->
  is_PortScannerError e = false ->
  is_Exception e = true ->
  fst (run_nmap_scan E target options s) = Return None
  /\ log (snd (run_nmap_scan E target options s))
     = log s ++ [(ERROR, "Unexpected error: " +:+ exn_str e)]
  /\ stdout (snd (run_nmap_scan E target options s))
     = stdout s ++ [scan_banner E target options;
                    colored E ("Unexpected error: " +:+ exn_str e) red [] +:+ nl].
Proof.
  intros Hinit Hscan Hcls Hexc. rewrite run_nmap_scan_eq, Hinit, Hscan. cbv zeta.
  rewrite Hcls, Hexc. cbn. rewrite <- app_assoc. repeat split.
Qed.

Lemma run_nmap_scan_unexpected_error_witness :
  fst (run_nmap_scan (Cases.scan_raises Cases.timed_out) "localhost" "-sV"
                     (Sample.start [])) = Return None
  /\ log (snd (run_nmap_scan (Cases.scan_raises Cases.timed_out) "localhost" "-sV"
                             (Sample.start [])))
     = log (Sample.start []) ++ [(ERROR, "Unexpected error: " +:+ exn_str Cases.timed_out)]
  /\ stdout (snd (run_nmap_scan (Cases.scan_raises Cases.timed_out) "localhost" "-sV"
                                (Sample.start [])))
     = stdout (Sample.start [])
       ++ [scan_banner (Cases.scan_raises Cases.timed_out) "localhost" "-sV";
           colored (Cases.scan_raises Cases.timed_out)
                   ("Unexpected error: " +:+ exn_str Cases.timed_out) red []
           +:+ nl].
Proof.
  apply (run_nmap_scan_unexpected_error (Cases.scan_raises Cases.timed_out)
           "localhost" "-sV" (Sample.start []) Cases.timed_out); reflexivity.
Defined.

(** X6. A keyboard interrupt during the scan is caught by neither
    handler: it leaves [run_nmap_scan] after the banner has been printed,
    and nothing is logged. *)
Theorem run_nmap_scan_interrupt_escapes
    (E : Env) (target options : string) (s : State) (e : exn) :
  PortScanner_init E = Return tt ->
  scan E target options = Raise e ->
  is_Exception e = false ->
  run_nmap_scan E target options s
  = (Raise e, emit [scan_banner E target options] s).
Proof.
  intros Hinit Hscan Hexc. rewrite run_nmap_scan_eq, Hinit, Hscan. cbv zeta.
  rewrite Hexc. destruct e as [[] msg]; try discriminate. reflexivity.
Qed.

Lemma run_nmap_scan_interrupt_escapes_witness :
  run_nmap_scan (Cases.scan_raises Cases.interrupted) "localhost" "-sV"
                (Sample.start [])
  = (Raise Cases.interrupted,
     emit [scan_banner (Cases.scan_raises Cases.interrupted) "localhost" "-sV"]
          (Sample.start [])).
Proof.
  apply (run_nmap_scan_interrupt_escapes (Cases.scan_raises Cases.interrupted)
           "localhost" "-sV" (Sample.start []) Cases.interrupted); reflexivity.
Defined.

(** ** validate_target and exceptions that are no socket errors *)

(** X7. An exception of the resolver that is not a [socket.error], such
    as the [UnicodeError] for an over-long label, is not turned into
    [False]: it leaves [validate_target], and nothing is logged or
    printed. *)
Theorem validate_target_lets_other_exceptions_out
    (E : Env) (target : string) (s : State) (e : exn) :
  gethostbyname E target = Raise e ->
  is_socket_error e = false ->
  validate_target E target s = (Raise e, s).
Proof.
  intros Hres Hcls. rewrite validate_target_eq, Hres, Hcls. reflexivity.
Qed.

Lemma validate_target_lets_other_exceptions_out_witness :
  validate_target Cases.idna_strict (Cases.sixty_four +:+ ".example")
                  (Sample.start [])
  = (Raise (Exn UnicodeError "encoding with 'idna' codec failed"), Sample.start []).
Proof.
  apply (validate_target_lets_other_exceptions_out Cases.idna_strict
           (Cases.sixty_four +:+ ".example") (Sample.start [])
           (Exn UnicodeError "encoding with 'idna' codec failed")).
  - vm_compute. reflexivity.
  - reflexivity.
Defined.

(** ** strip *)

Lemma lstrip_all_space (w : string) :
  all_chars is_space w = true -> lstrip w = "".
Proof.
  induction w as [| c w IH]; [reflexivity |]. cbn [all_chars lstrip].
  intros [Hc Hw]%andb_true_iff. rewrite Hc. exact (IH Hw).
Qed.

Lemma lstrip_app_space (w x : string) :
  all_chars is_space w = true -> lstrip (w +:+ x) = lstrip x.
Proof.
  induction w as [| c w IH]; [reflexivity |]. cbn [all_chars].
  intros [Hc Hw]%andb_true_iff.
  change (String c w +:+ x) with (String c (w +:+ x)).
  cbn [lstrip]. rewrite Hc. exact (IH Hw).
Qed.

Lemma rstrip_all_space (w : string) :
  all_chars is_space w = true -> rstrip w = "".
Proof.
  induction w as [| c w IH]; [reflexivity |]. cbn [all_chars].
  intros [Hc Hw]%andb_true_iff. cbn [rstrip]. rewrite (IH Hw), Hc. reflexivity.
Qed.

Lemma rstrip_app_space (x w : string) :
  all_chars is_space w = true -> rstrip (x +:+ w) = rstrip x.
Proof.
  intros Hw. induction x as [| c x IH].
  - change ("" +:+ w) with w. rewrite (rstrip_all_space w Hw). reflexivity.
  - change (String c x +:+ w) with (String c (x +:+ w)).
    cbn [rstrip]. rewrite IH. reflexivity.
Qed.

Lemma strip_app_space (x w : string) :
  all_chars is_space w = true -> strip (x +:+ w) = strip x.
Proof.
  intros Hw. unfold strip. induction x as [| c x IH].
  - change ("" +:+ w) with w. rewrite (lstrip_all_space w Hw). reflexivity.
  - change (String c x +:+ w) with (String c (x +:+ w)).
    cbn [lstrip]. destruct (is_space c); [exact IH |].
    exact (rstrip_app_space (String c x) w Hw).
Qed.

Lemma strip_padding (pre x post : string) :
  all_chars is_space pre = true ->
  all_chars is_space post = true ->
  strip (pre +:+ x +:+ post) = strip x.
Proof.
  intros Hpre Hpost. rewrite <- (strip_app_space x post Hpost).
  unfold strip. rewrite (lstrip_app_space pre (x +:+ post) Hpre). reflexivity.
Qed.

(** ** scan_menu: what it reads and writes *)

Lemma scan_menu_run (s : State) :
  scan_menu s =
    match stdin s with
    | [] => (Raise (Exn EOFError "EOF when reading a line"), emit menu_texts s)
    | line :: rest =>
        (Return (default "-sV -sC" (scan_options !! strip line)),
         set_stdin rest (emit menu_texts s))
    end.
Proof.
  unfold scan_menu, bind, print, input, ret.
  cbn [fst snd stdin write_stdout].
  destruct s as [inp out lg fs tk]. cbn [stdin].
  destruct inp as [| line rest]; unfold emit, set_stdin, write_stdout, menu_texts;
    cbn [stdin stdout log files ticks]; rewrite <- !app_assoc; reflexivity.
Qed.

(** X8. At the end of standard input [scan_menu] does not fall back on
    the default option: after the menu and the prompt have been written,
    the [EOFError] of [input] leaves the function. *)
Theorem scan_menu_end_of_input (s : State) :
  stdin s = [] ->
  scan_menu s = (Raise (Exn EOFError "EOF when reading a line"), emit menu_texts s).
Proof. intros Hin. rewrite scan_menu_run, Hin. reflexivity. Qed.

Lemma scan_menu_end_of_input_witness :
  scan_menu (Sample.start [])
  = (Raise (Exn EOFError "EOF when reading a line"), emit menu_texts (Sample.start [])).
Proof. apply (scan_menu_end_of_input (Sample.start [])). reflexivity. Defined.

(** X9. [scan_menu] reads exactly one line and leaves the following ones
    unread; it writes the same six menu lines and the prompt whatever is
    entered, and it touches neither the log, nor a file, nor the clock. *)
Theorem scan_menu_reads_one_line (s : State) (line : string) (rest : list string) :
  stdin s = line :: rest ->
  stdin (snd (scan_menu s)) = rest
  /\ stdout (snd (scan_menu s)) = stdout s ++ menu_texts
  /\ log (snd (scan_menu s)) = log s
  /\ files (snd (scan_menu s)) = files s
  /\ ticks (snd (scan_menu s)) = ticks s.
Proof. intros Hin. rewrite scan_menu_run, Hin. repeat split. Qed.

Lemma scan_menu_reads_one_line_witness :
  stdin (snd (scan_menu (Sample.start ["3"; "yes"]))) = ["yes"]
  /\ stdout (snd (scan_menu (Sample.start ["3"; "yes"])))
     = stdout (Sample.start ["3"; "yes"]) ++ menu_texts
  /\ log (snd (scan_menu (Sample.start ["3"; "yes"]))) = log (Sample.start ["3"; "yes"])
  /\ files (snd (scan_menu (Sample.start ["3"; "yes"])))
     = files (Sample.start ["3"; "yes"])
  /\ ticks (snd (scan_menu (Sample.start ["3"; "yes"])))
     = ticks (Sample.start ["3"; "yes"]).
Proof.
  apply (scan_menu_reads_one_line (Sample.start ["3"; "yes"]) "3" ["yes"]).
  reflexivity.
Defined.

(** X10. White space around the entered choice does not count:
    [scan_menu] returns the same option for a line and for that line
    with white space before and after it. *)
Theorem scan_menu_ignores_padding
    (s : State) (pre line post : string) (rest : list string) :
  all_chars is_space pre = true ->
  all_chars is_space post = true ->
  fst (scan_menu (set_stdin ((pre +:+ line +:+ post) :: rest) s))
  = fst (scan_menu (set_stdin (line :: rest) s)).
Proof.
  intros Hpre Hpost. rewrite !scan_menu_run. cbn [stdin set_stdin fst].
  rewrite (strip_padding pre line post Hpre Hpost). reflexivity.
Qed.

Lemma scan_menu_ignores_padding_witness :
  fst (scan_menu (set_stdin (((" " +:+ tab) +:+ "4" +:+ "  ") :: []) (Sample.start [])))
  = fst (scan_menu (set_stdin ("4" :: []) (Sample.start []))).
Proof.
  apply (scan_menu_ignores_padding (Sample.start []) (" " +:+ tab) "4" "  " []);
    reflexivity.
Defined.



(** ** display_scan_results: what is printed and what is saved *)

Lemma append_assoc (a b c : string) : (a +:+ b) +:+ c = a +:+ (b +:+ c).
Proof.
  induction a as [| x a IH]; [reflexivity |].
  change ((String x a +:+ b) +:+ c) with (String x ((a +:+ b) +:+ c)).
  rewrite IH. reflexivity.
Qed.

Lemma append_nil_r (a : string) : a +:+ "" = a.
Proof.
  induction a as [| x a IH]; [reflexivity |].
  change (String x a +:+ "") with (String x (a +:+ "")).
  rewrite IH. reflexivity.
Qed.

Lemma length_report_prints (E : Env) (nm : PortScanner) :
  length (report_prints E nm) = length (report_lines nm).
Proof.
  unfold report_prints, report_lines. rewrite !length_concat, !map_map.
  f_equal. apply map_ext. intros host. unfold host_prints, host_lines.
  cbn [length]. rewrite !length_concat, !map_map. do 3 f_equal.
  apply map_ext. intros protocol. unfold protocol_prints, protocol_lines.
  cbn [length]. rewrite !length_map. reflexivity.
Qed.

Lemma length_report_lines (nm : PortScanner) :
  length (report_lines nm)
  = list_sum
      (map (fun host =>
              2 + list_sum
                    (map (fun protocol =>
                            1 + length (port_items (getitem nm host) protocol))
                         (all_protocols (getitem nm host))))
           (all_hosts nm)).
Proof.
  unfold report_lines. rewrite length_concat, map_map.
  f_equal. apply map_ext. intros host. unfold host_lines.
  cbn [length Nat.add]. rewrite length_concat, map_map. do 3 f_equal.
  apply map_ext. intros protocol. unfold protocol_lines.
  cbn [length Nat.add]. rewrite length_map. reflexivity.
Qed.

(** X12. [display_scan_results] prints two lines for each host, one for
    each protocol of the host and one for each port of the protocol, and
    one more line when it has saved the result; no line is printed
    twice or left out. *)
Theorem display_scan_results_line_count
    (E : Env) (nm : PortScanner) (save_to_file : bool) (s : State) :
  length (stdout (snd (display_scan_results E (Some nm) save_to_file s)))
  = length (stdout s)
    + list_sum
        (map (fun host =>
                2 + list_sum
                      (map (fun protocol =>
                              1 + length (port_items (getitem nm host) protocol))
                           (all_protocols (getitem nm host))))
             (all_hosts nm))
    + (if save_to_file then 1 else 0).
Proof.
  rewrite display_scan_results_eq, <- length_report_lines, <- (length_report_prints E).
  destruct save_to_file; cbn; rewrite ?length_app; cbn; lia.
Qed.

Example two_hosts_line_count :
  length (stdout (snd (display_scan_results Cases.plain (Some Cases.two_hosts) true
                                            (Sample.start []))))
  = 8.
Proof. vm_compute. reflexivity. Qed.

(** X13. A scan that found no host prints nothing; when saving is
    requested it still creates the result file, with an empty text, and
    announces it. *)
Theorem display_scan_results_no_hosts
    (E : Env) (nm : PortScanner) (s : State) :
  all_hosts nm = [] ->
  display_scan_results E (Some nm) false s = (Return tt, s)
  /\ let filename :=
       "nmap_scan_results_" +:+ strftime_stamp (clock E (ticks s)) +:+ ".txt" in
     files (snd (display_scan_results E (Some nm) true s))
     = <[filename := ""]> (files s)
     /\ stdout (snd (display_scan_results E (Some nm) true s))
        = stdout s ++ [colored E (nl +:+ "Results saved to " +:+ filename) cyan []
                       +:+ nl].
Proof.
  intros Hnone. rewrite !display_scan_results_eq.
  unfold report_prints, report_lines. rewrite Hnone. cbn [map concat].
  rewrite emit_nil. repeat split.
Qed.

Lemma display_scan_results_no_hosts_witness :
  display_scan_results Sample.lan (Some Cases.no_hosts) false (Sample.start [])
  = (Return tt, Sample.start [])
  /\ let filename :=
       "nmap_scan_results_"
       +:+ strftime_stamp (clock Sample.lan (ticks (Sample.start []))) +:+ ".txt" in
     files (snd (display_scan_results Sample.lan (Some Cases.no_hosts) true
                                      (Sample.start [])))
     = <[filename := ""]> (files (Sample.start []))
     /\ stdout (snd (display_scan_results Sample.lan (Some Cases.no_hosts) true
                                          (Sample.start [])))
        = stdout (Sample.start [])
          ++ [colored Sample.lan (nl +:+ "Results saved to " +:+ filename) cyan []
              +:+ nl].
Proof.
  apply (display_scan_results_no_hosts Sample.lan Cases.no_hosts (Sample.start [])).
  reflexivity.
Defined.

(** X14. [display_scan_results] never logs and never reads input; it
    reads the clock once when it saves and not at all otherwise; and
    saving leaves every file but the result file as it was. *)
Theorem display_scan_results_frame
    (E : Env) (o : option PortScanner) (save_to_file : bool) (s : State) :
  let s' := snd (display_scan_results E o save_to_file s) in
  log s' = log s
  /\ stdin s' = stdin s
  /\ ticks s' = ticks s + (if save_to_file && bool_decide (is_Some o) then 1 else 0)
  /\ forall name,
       name <> "nmap_scan_results_" +:+ strftime_stamp (clock E (ticks s)) +:+ ".txt" ->
       files s' !! name = files s !! name.
Proof.
  cbv zeta. destruct o as [nm |].
  - rewrite display_scan_results_eq. destruct save_to_file; cbn.
    + repeat split; [lia |]. intros name Hname.
      rewrite lookup_insert_ne; [reflexivity | congruence].
    + repeat split. lia.
  - cbn. rewrite andb_false_r. repeat split. lia.
Qed.

Lemma concat_lines (ls : list string) :
  ls <> [] ->
  String.concat "" (map (fun l => l +:+ nl) ls) = join nl ls +:+ nl.
Proof.
  unfold join. induction ls as [| a ls IH]; [congruence |]. intros _.
  destruct ls as [| b ls]; [reflexivity |].
  change (String.concat "" (map (fun l => l +:+ nl) (a :: b :: ls)))
    with ((a +:+ nl) +:+ String.concat "" (map (fun l => l +:+ nl) (b :: ls))).
  change (String.concat nl (a :: b :: ls))
    with (a +:+ nl +:+ String.concat nl (b :: ls)).
  rewrite IH by congruence. rewrite !append_assoc. reflexivity.
Qed.

(** X15. With colours off and at least one host, what
    [display_scan_results] prints before the announcement is, put
    together, the text it saves followed by a newline: the file holds
    what was shown. *)
Theorem display_scan_results_shows_what_it_saves
    (E : Env) (nm : PortScanner) (s : State) :
  (forall t c a, colored E t c a = t) ->
  all_hosts nm <> [] ->
  let filename :=
    "nmap_scan_results_" +:+ strftime_stamp (clock E (ticks s)) +:+ ".txt" in
  exists printed saved,
    stdout (snd (display_scan_results E (Some nm) true s))
    = stdout s ++ printed ++ [(nl +:+ "Results saved to " +:+ filename) +:+ nl]
    /\ files (snd (display_scan_results E (Some nm) true s)) !! filename = Some saved
    /\ String.concat "" printed = saved +:+ nl.
Proof.
  intros Hplain Hhosts filename.
  exists (report_prints E nm), (join nl (report_lines nm)).
  rewrite display_scan_results_eq. cbn. fold filename.
  rewrite Hplain, <- app_assoc, lookup_insert_eq.
  repeat split.
  rewrite (report_prints_plain E nm Hplain). apply concat_lines.
  unfold report_lines. destruct (all_hosts nm) as [| h hs]; [congruence |].
  discriminate.
Qed.

Lemma display_scan_results_shows_what_it_saves_witness :
  let filename :=
    "nmap_scan_results_"
    +:+ strftime_stamp (clock Cases.plain (ticks (Sample.start []))) +:+ ".txt" in
  exists printed saved,
    stdout (snd (display_scan_results Cases.plain (Some Cases.two_hosts) true
                                      (Sample.start [])))
    = stdout (Sample.start []) ++ printed
      ++ [(nl +:+ "Results saved to " +:+ filename) +:+ nl]
    /\ files (snd (display_scan_results Cases.plain (Some Cases.two_hosts) true
                                        (Sample.start []))) !! filename = Some saved
    /\ String.concat "" printed = saved +:+ nl.
Proof.
  apply (display_scan_results_shows_what_it_saves Cases.plain Cases.two_hosts
           (Sample.start [])).
  - reflexivity.
  - discriminate.
Defined.

(** X16. The saved text opens with an empty line: its first line break
    comes before [Host: <first host> (<its name>)]. *)
Theorem display_scan_results_leading_newline
    (E : Env) (nm : PortScanner) (s : State) (host : string) (others : list string) :
  all_hosts nm = host :: others ->
  exists rest,
    files (snd (display_scan_results E (Some nm) true s))
      !! ("nmap_scan_results_" +:+ strftime_stamp (clock E (ticks s)) +:+ ".txt")
    = Some (nl +:+ "Host: " +:+ host +:+ " (" +:+ hostname (getitem nm host) +:+ ")"
            +:+ nl +:+ "State: " +:+ state (getitem nm host) +:+ rest).
Proof.
  intros Hhosts. rewrite display_scan_results_eq. cbn.
  rewrite lookup_insert_eq. unfold report_lines, join. rewrite Hhosts.
  cbn [map concat]. unfold host_lines at 1. cbn [app].
  set (tail := concat (map (protocol_lines (getitem nm host))
                           (all_protocols (getitem nm host)))
               ++ concat (map (host_lines nm) others)).
  destruct tail as [| l tail].
  - exists "". f_equal. unfold String.concat.
    repeat (progress (simpl; rewrite ?append_assoc)).
    rewrite append_nil_r. reflexivity.
  - exists (nl +:+ String.concat nl (l :: tail)). f_equal.
    change (String.concat nl (?a :: ?b :: l :: tail))
      with (a +:+ nl +:+ b +:+ nl +:+ String.concat nl (l :: tail)).
    repeat (progress (simpl; rewrite ?append_assoc)). reflexivity.
Qed.

Lemma display_scan_results_leading_newline_witness :
  exists rest,
    files (snd (display_scan_results Sample.lan (Some Sample.one_host) true
                                     (Sample.start [])))
      !! ("nmap_scan_results_"
          +:+ strftime_stamp (clock Sample.lan (ticks (Sample.start []))) +:+ ".txt")
    = Some (nl +:+ "Host: " +:+ "127.0.0.1" +:+ " ("
            +:+ hostname (getitem Sample.one_host "127.0.0.1") +:+ ")"
            +:+ nl +:+ "State: " +:+ state (getitem Sample.one_host "127.0.0.1")
            +:+ rest).
Proof.
  apply (display_scan_results_leading_newline Sample.lan Sample.one_host
           (Sample.start []) "127.0.0.1" []).
  reflexivity.
Defined.

(** ** main: the whole run *)

Lemma main_run (E : Env) (s : State) (l1 l2 l3 : string) (rest : list string) ip :
  stdin s = l1 :: l2 :: l3 :: rest ->
  gethostbyname E (strip l1) = Return ip ->
  main E s
  = bind (run_nmap_scan E (strip l1) (default "-sV -sC" (scan_options !! strip l2)))
         (fun nm => display_scan_results E nm
                      (bool_decide (lower (strip l3) ∈ ["yes"; "y"])))
         (ready E (strip l1) rest s).
Proof.
  intros Hin Hres. destruct s as [inp out lg fs tk]. cbn [stdin] in Hin. subst inp.
  unfold main.
  rewrite (bind_Return _ _ _ tt
             (emit [welcome E] {| stdin := l1 :: l2 :: l3 :: rest; stdout := out;
                                  log := lg; files := fs; ticks := tk |}));
    [| reflexivity].
  rewrite (bind_Return _ _ _ l1
             {| stdin := l2 :: l3 :: rest; stdout := (out ++ [welcome E]) ++ [target_prompt E];
                log := lg; files := fs; ticks := tk |}); [| reflexivity].
  rewrite (bind_Return _ _ _ true
             {| stdin := l2 :: l3 :: rest; stdout := (out ++ [welcome E]) ++ [target_prompt E];
                log := lg; files := fs; ticks := tk |});
    [| rewrite validate_target_eq, Hres; reflexivity].
  cbn [negb].
  rewrite (bind_Return _ _ _ (default "-sV -sC" (scan_options !! strip l2))
             {| stdin := l3 :: rest;
                stdout := ((out ++ [welcome E]) ++ [target_prompt E]) ++ menu_texts;
                log := lg; files := fs; ticks := tk |});
    [| rewrite scan_menu_run; reflexivity].
  rewrite (bind_Return _ _ _ l3
             {| stdin := rest;
                stdout := (((out ++ [welcome E]) ++ [target_prompt E]) ++ menu_texts)
                          ++ [save_prompt];
                log := lg; files := fs; ticks := tk |}); [| reflexivity].
  unfold bind at 1, logging_info. unfold bind at 1, datetime_now.
  unfold bind at 1, print.
  unfold write_stdout, tick, append_log, ready, start_line.
  cbn [stdin stdout log files ticks]. rewrite <- !app_assoc. reflexivity.
Qed.

Lemma lower_char_y (c : ascii) :
  lower_char c = "y"%char -> c = "y"%char \/ c = "Y"%char.
Proof.
  destruct c as [[] [] [] [] [] [] [] []]; vm_compute; intros H;
    first [discriminate H | left; reflexivity | right; reflexivity].
Qed.

Lemma lower_char_e (c : ascii) :
  lower_char c = "e"%char -> c = "e"%char \/ c = "E"%char.
Proof.
  destruct c as [[] [] [] [] [] [] [] []]; vm_compute; intros H;
    first [discriminate H | left; reflexivity | right; reflexivity].
Qed.

Lemma lower_char_s (c : ascii) :
  lower_char c = "s"%char -> c = "s"%char \/ c = "S"%char.
Proof.
  destruct c as [[] [] [] [] [] [] [] []]; vm_compute; intros H;
    first [discriminate H | left; reflexivity | right; reflexivity].
Qed.

Ltac listed := apply (bool_decide_unpack _); vm_compute; exact I.

(** The answers that lower to [yes] or [y] are the ten of [yes_forms]. *)
Lemma lower_yes_forms (t : string) :
  bool_decide (lower t ∈ ["yes"; "y"]) = bool_decide (t ∈ yes_forms).
Proof.
  apply bool_decide_ext. split.
  - intros H. apply elem_of_cons in H as [H | H].
    + destruct t as [| c1 [| c2 [| c3 [| c4 t]]]]; try discriminate H.
      cbn [lower] in H. injection H as H1 H2 H3.
      destruct (lower_char_y c1 H1) as [-> | ->],
               (lower_char_e c2 H2) as [-> | ->],
               (lower_char_s c3 H3) as [-> | ->]; listed.
    + apply elem_of_cons in H as [H | H]; [| apply elem_of_nil in H; destruct H].
      destruct t as [| c1 [| c2 t]]; try discriminate H.
      cbn [lower] in H. injection H as H1.
      destruct (lower_char_y c1 H1) as [-> | ->]; listed.
  - unfold yes_forms. intros H.
    repeat (apply elem_of_cons in H as [-> | H]; [listed |]).
    apply elem_of_nil in H. destruct H.
Qed.

(** X17. With nothing on standard input [main] ends at its first
    question: the [EOFError] of [input] leaves it after the welcome and
    the prompt, the resolver is never asked, nothing is logged, and the
    process ends with status 1. *)
Theorem main_end_of_input (E : Env) (s : State) :
  stdin s = [] ->
  main E s = (Raise (Exn EOFError "EOF when reading a line"),
              emit [welcome E; target_prompt E] s)
  /\ script_status E s = 1%Z.
Proof.
  intros Hin.
  assert (Hmain : main E s = (Raise (Exn EOFError "EOF when reading a line"),
                              emit [welcome E; target_prompt E] s)).
  { unfold main.
    rewrite (bind_Return _ _ _ tt (emit [welcome E] s)); [| reflexivity].
    apply bind_Raise. unfold input. cbn [stdin emit]. rewrite Hin.
    rewrite write_stdout_emit, emit_emit. reflexivity. }
  split; [exact Hmain |]. unfold script_status. rewrite Hmain. reflexivity.
Qed.

Lemma main_end_of_input_witness :
  main Sample.lan (Sample.start [])
  = (Raise (Exn EOFError "EOF when reading a line"),
     emit [welcome Sample.lan; target_prompt Sample.lan] (Sample.start []))
  /\ script_status Sample.lan (Sample.start []) = 1%Z.
Proof. apply (main_end_of_input Sample.lan (Sample.start [])). reflexivity. Defined.

(** X18. After a target that does not resolve, [main] has read one line
    only and left the following ones unread; it has written the welcome,
    the prompt and the rejection, logged the one ERROR record, and
    neither read the clock nor written a file. *)
Theorem main_invalid_target_state
    (E : Env) (s : State) (line : string) (rest : list string) (e : exn) :
  stdin s = line :: rest ->
  gethostbyname E (strip line) = Raise e ->
  is_socket_error e = true ->
  let s' := snd (main E s) in
  stdin s' = rest
  /\ stdout s'
     = stdout s
       ++ [welcome E; target_prompt E;
           colored E ("Invalid target: " +:+ strip line
                      +:+ ". Please enter a valid IP or domain.") red [] +:+ nl]
  /\ log s' = log s ++ [(ERROR, "Invalid target: " +:+ strip line)]
  /\ files s' = files s
  /\ ticks s' = ticks s.
Proof.
  intros Hin Hres Hcls. cbv zeta. unfold main.
  rewrite (bind_Return _ _ _ tt (emit [welcome E] s)); [| reflexivity].
  rewrite (bind_Return _ _ _ line
             (set_stdin rest (emit [welcome E; target_prompt E] s)));
    [| unfold input; cbn [stdin emit]; rewrite Hin;
       rewrite write_stdout_emit, emit_emit; reflexivity].
  unfold bind. rewrite validate_target_eq, Hres, Hcls. cbn.
  rewrite <- !app_assoc. repeat split.
Qed.

Lemma main_invalid_target_state_witness :
  let s' := snd (main Sample.lan (Sample.start ["nowhere.invalid"; "1"; "yes"])) in
  stdin s' = ["1"; "yes"]
  /\ stdout s'
     = stdout (Sample.start ["nowhere.invalid"; "1"; "yes"])
       ++ [welcome Sample.lan; target_prompt Sample.lan;
           colored Sample.lan ("Invalid target: " +:+ strip "nowhere.invalid"
                               +:+ ". Please enter a valid IP or domain.") red []
           +:+ nl]
  /\ log s' = log (Sample.start ["nowhere.invalid"; "1"; "yes"])
              ++ [(ERROR, "Invalid target: " +:+ strip "nowhere.invalid")]
  /\ files s' = files (Sample.start ["nowhere.invalid"; "1"; "yes"])
  /\ ticks s' = ticks (Sample.start ["nowhere.invalid"; "1"; "yes"]).
Proof.
  apply (main_invalid_target_state Sample.lan
           (Sample.start ["nowhere.invalid"; "1"; "yes"]) "nowhere.invalid"
           ["1"; "yes"] (Exn OSError "[Errno -2] Name or service not known")).
  - reflexivity.
  - vm_compute. reflexivity.
  - reflexivity.
Defined.

(** X19. A scan that fails with an [Exception] does not fail the run:
    [main] returns, the process ends with status 0, no file is written
    even when saving was requested, and the log holds the start of the
    scan followed by the error. *)
Theorem main_failed_scan
    (E : Env) (s : State) (l1 l2 l3 : string) (rest : list string)
    (ip : string) (e : exn) :
  stdin s = l1 :: l2 :: l3 :: rest ->
  gethostbyname E (strip l1) = Return ip ->
  PortScanner_init E = Return tt ->
  scan E (strip l1) (default "-sV -sC" (scan_options !! strip l2)) = Raise e ->
  is_Exception e = true ->
  fst (main E s) = Return tt
  /\ script_status E s = 0%Z
  /\ files (snd (main E s)) = files s
  /\ stdin (snd (main E s)) = rest
  /\ log (snd (main E s))
     = log s ++ [(INFO, "Starting scan on " +:+ strip l1);
                 (ERROR, (if is_PortScannerError e then "Nmap error: "
                          else "Unexpected error: ") +:+ exn_str e)].
Proof.
  intros Hin Hres Hinit Hscan Hexc. unfold script_status.
  rewrite (main_run E s l1 l2 l3 rest ip Hin Hres).
  unfold bind. rewrite run_nmap_scan_eq, Hinit, Hscan. cbv zeta.
  destruct (is_PortScannerError e); [| rewrite Hexc];
    cbn; rewrite <- app_assoc; repeat split.
Qed.

Lemma main_failed_scan_witness :
  fst (main (Cases.scan_raises Cases.timed_out)
            (Sample.start ["localhost"; "2"; "yes"])) = Return tt
  /\ script_status (Cases.scan_raises Cases.timed_out)
                   (Sample.start ["localhost"; "2"; "yes"]) = 0%Z
  /\ files (snd (main (Cases.scan_raises Cases.timed_out)
                      (Sample.start ["localhost"; "2"; "yes"])))
     = files (Sample.start ["localhost"; "2"; "yes"])
  /\ stdin (snd (main (Cases.scan_raises Cases.timed_out)
                      (Sample.start ["localhost"; "2"; "yes"]))) = []
  /\ log (snd (main (Cases.scan_raises Cases.timed_out)
                    (Sample.start ["localhost"; "2"; "yes"])))
     = log (Sample.start ["localhost"; "2"; "yes"])
       ++ [(INFO, "Starting scan on " +:+ strip "localhost");
           (ERROR, (if is_PortScannerError Cases.timed_out then "Nmap error: "
                    else "Unexpected error: ") +:+ exn_str Cases.timed_out)].
Proof.
  apply (main_failed_scan (Cases.scan_raises Cases.timed_out)
           (Sample.start ["localhost"; "2"; "yes"]) "localhost" "2" "yes" []
           "127.0.0.1" Cases.timed_out); vm_compute; reflexivity.
Defined.

(** X20. After a successful scan [main] saves the result exactly when
    the answer to the last question, without surrounding white space, is
    [y] or [yes] in any mix of upper and lower case.  The file is named
    after the second reading of the clock, taken after the scan, and
    holds the collected lines; the log holds the start and the success
    of the scan; three lines of input have been read. *)
Theorem main_saves_iff_yes
    (E : Env) (s : State) (l1 l2 l3 : string) (rest : list string)
    (ip : string) (nm : PortScanner) :
  stdin s = l1 :: l2 :: l3 :: rest ->
  gethostbyname E (strip l1) = Return ip ->
  PortScanner_init E = Return tt ->
  scan E (strip l1) (default "-sV -sC" (scan_options !! strip l2)) = Return nm ->
  let filename :=
    "nmap_scan_results_" +:+ strftime_stamp (clock E (S (ticks s))) +:+ ".txt" in
  fst (main E s) = Return tt
  /\ files (snd (main E s))
     = (if bool_decide (strip l3 ∈ yes_forms)
        then <[filename := join nl (report_lines nm)]> (files s)
        else files s)
  /\ ticks (snd (main E s))
     = (if bool_decide (strip l3 ∈ yes_forms) then 2 + ticks s else 1 + ticks s)
  /\ stdin (snd (main E s)) = rest
  /\ log (snd (main E s))
     = log s ++ [(INFO, "Starting scan on " +:+ strip l1);
                 (INFO, "Scan successful on " +:+ strip l1)].
Proof.
  intros Hin Hres Hinit Hscan filename.
  rewrite (main_run E s l1 l2 l3 rest ip Hin Hres).
  unfold bind. rewrite run_nmap_scan_eq, Hinit, Hscan. cbv beta iota zeta.
  rewrite display_scan_results_eq, lower_yes_forms.
  destruct (bool_decide (strip l3 ∈ yes_forms)); cbn;
    rewrite <- app_assoc; repeat split.
Qed.

Lemma main_saves_iff_yes_witness :
  let filename :=
    "nmap_scan_results_"
    +:+ strftime_stamp (clock Cases.plain (S (ticks (Sample.start ["localhost"; "4"; " YeS "]))))
    +:+ ".txt" in
  fst (main Cases.plain (Sample.start ["localhost"; "4"; " YeS "])) = Return tt
  /\ files (snd (main Cases.plain (Sample.start ["localhost"; "4"; " YeS "])))
     = (if bool_decide (strip " YeS " ∈ yes_forms)
        then <[filename := join nl (report_lines Cases.two_hosts)]>
               (files (Sample.start ["localhost"; "4"; " YeS "]))
        else files (Sample.start ["localhost"; "4"; " YeS "]))
  /\ ticks (snd (main Cases.plain (Sample.start ["localhost"; "4"; " YeS "])))
     = (if bool_decide (strip " YeS " ∈ yes_forms)
        then 2 + ticks (Sample.start ["localhost"; "4"; " YeS "])
        else 1 + ticks (Sample.start ["localhost"; "4"; " YeS "]))
  /\ stdin (snd (main Cases.plain (Sample.start ["localhost"; "4"; " YeS "]))) = []
  /\ log (snd (main Cases.plain (Sample.start ["localhost"; "4"; " YeS "])))
     = log (Sample.start ["localhost"; "4"; " YeS "])
       ++ [(INFO, "Starting scan on " +:+ strip "localhost");
           (INFO, "Scan successful on " +:+ strip "localhost")].
Proof.
  apply (main_saves_iff_yes Cases.plain (Sample.start ["localhost"; "4"; " YeS "])
           "localhost" "4" " YeS " [] "127.0.0.1" Cases.two_hosts);
    vm_compute; reflexivity.
Defined.

Example saved_under_second_reading :
  files (snd (main Cases.plain (Sample.start ["localhost"; "4"; " YeS "])))
    !! "nmap_scan_results_20240309_120501.txt"
  = Some (nl +:+ "Host: 127.0.0.1 (localhost)" +:+ nl
          +:+ "State: up" +:+ nl
          +:+ "Protocol: tcp" +:+ nl
          +:+ "Port: 80" +:+ tab +:+ "State: " +:+ Sample.open_port +:+ nl
          +:+ "Port: 443" +:+ tab +:+ "State: " +:+ Sample.open_port +:+ nl
          +:+ nl +:+ "Host: 192.0.2.7 ()" +:+ nl
          +:+ "State: down").
Proof. vm_compute. reflexivity. Qed.

Example not_saved_on_yeah :
  files (snd (main Cases.plain (Sample.start ["localhost"; "4"; "yeah"]))) = ∅.
Proof. vm_compute. reflexivity. Qed.

(** X21. When the scanner object cannot be built, the exception of
    [nmap.PortScanner()] leaves [main] as well: the run ends after the
    start of the scan has been logged and announced, with a nonzero
    status and without any file. *)
Theorem main_scanner_missing
    (E : Env) (s : State) (l1 l2 l3 : string) (rest : list string)
    (ip : string) (e : exn) :
  stdin s = l1 :: l2 :: l3 :: rest ->
  gethostbyname E (strip l1) = Return ip ->
  PortScanner_init E = Raise e ->
  main E s = (Raise e, ready E (strip l1) rest s)
  /\ script_status E s <> 0%Z.
Proof.
  intros Hin Hres Hinit.
  assert (Hmain : main E s = (Raise e, ready E (strip l1) rest s)).
  { rewrite (main_run E s l1 l2 l3 rest ip Hin Hres).
    apply bind_Raise. rewrite run_nmap_scan_eq, Hinit. reflexivity. }
  split; [exact Hmain |]. unfold script_status. rewrite Hmain. cbn.
  destruct (is_Exception e); discriminate.
Qed.

Lemma main_scanner_missing_witness :
  main Sample.no_nmap (Sample.start ["127.0.0.1"; "2"; "no"])
  = (Raise (Exn PortScannerError "nmap program was not found in path"),
     ready Sample.no_nmap (strip "127.0.0.1") [] (Sample.start ["127.0.0.1"; "2"; "no"]))
  /\ script_status Sample.no_nmap (Sample.start ["127.0.0.1"; "2"; "no"]) <> 0%Z.
Proof.
  apply (main_scanner_missing Sample.no_nmap (Sample.start ["127.0.0.1"; "2"; "no"])
           "127.0.0.1" "2" "no" [] "127.0.0.1"
           (Exn PortScannerError "nmap program was not found in path"));
    vm_compute; reflexivity.
Defined.

(** X22. An exception of the resolver that is not a [socket.error]
    ends the run at the validation: it leaves [main] with a nonzero
    status, nothing is logged and no further line is read. *)
Theorem main_resolver_exception
    (E : Env) (s : State) (line : string) (rest : list string) (e : exn) :
  stdin s = line :: rest ->
  gethostbyname E (strip line) = Raise e ->
  is_socket_error e = false ->
  main E s = (Raise e, set_stdin rest (emit [welcome E; target_prompt E] s))
  /\ script_status E s <> 0%Z.
Proof.
  intros Hin Hres Hcls.
  assert (Hmain : main E s
                  = (Raise e, set_stdin rest (emit [welcome E; target_prompt E] s))).
  { unfold main.
    rewrite (bind_Return _ _ _ tt (emit [welcome E] s)); [| reflexivity].
    rewrite (bind_Return _ _ _ line
               (set_stdin rest (emit [welcome E; target_prompt E] s)));
      [| unfold input; cbn [stdin emit]; rewrite Hin;
         rewrite write_stdout_emit, emit_emit; reflexivity].
    apply bind_Raise. rewrite validate_target_eq, Hres, Hcls. reflexivity. }
  split; [exact Hmain |]. unfold script_status. rewrite Hmain. cbn.
  destruct (is_Exception e); discriminate.
Qed.

Lemma main_resolver_exception_witness :
  main Cases.idna_strict (Sample.start [Cases.sixty_four; "1"])
  = (Raise (Exn UnicodeError "encoding with 'idna' codec failed"),
     set_stdin ["1"] (emit [welcome Cases.idna_strict; target_prompt Cases.idna_strict]
                           (Sample.start [Cases.sixty_four; "1"])))
  /\ script_status Cases.idna_strict (Sample.start [Cases.sixty_four; "1"]) <> 0%Z.
Proof.
  apply (main_resolver_exception Cases.idna_strict
           (Sample.start [Cases.sixty_four; "1"]) Cases.sixty_four ["1"]
           (Exn UnicodeError "encoding with 'idna' codec failed"));
    vm_compute; reflexivity.
Defined.

(** X23. When the input ends before the three answers are given, a
    valid target does not start a scan: [main] ends with [EOFError] and
    status 1, the log is untouched and the clock has not been read. *)
Theorem main_short_input
    (E : Env) (s : State) (l1 : string) (more : list string) (ip : string) :
  stdin s = l1 :: more ->
  length more < 2 ->
  gethostbyname E (strip l1) = Return ip ->
  fst (main E s) = Raise (Exn EOFError "EOF when reading a line")
  /\ script_status E s = 1%Z
  /\ log (snd (main E s)) = log s
  /\ ticks (snd (main E s)) = ticks s
  /\ files (snd (main E s)) = files s.
Proof.
  intros Hin Hlen Hres. unfold script_status, main.
  rewrite (bind_Return _ _ _ tt (emit [welcome E] s)); [| reflexivity].
  rewrite (bind_Return _ _ _ l1
             (set_stdin more (emit [welcome E; target_prompt E] s)));
    [| unfold input; cbn [stdin emit]; rewrite Hin;
       rewrite write_stdout_emit, emit_emit; reflexivity].
  rewrite (bind_Return _ _ _ true
             (set_stdin more (emit [welcome E; target_prompt E] s)));
    [| rewrite validate_target_eq, Hres; reflexivity].
  cbn [negb]. destruct more as [| l2 [| l3 more]]; [| | cbn in Hlen; lia].
  - rewrite (bind_Raise _ _ _ (Exn EOFError "EOF when reading a line")
               (emit menu_texts (set_stdin [] (emit [welcome E; target_prompt E] s))));
      [| rewrite scan_menu_run; reflexivity].
    repeat split.
  - rewrite (bind_Return _ _ _ (default "-sV -sC" (scan_options !! strip l2))
               (set_stdin [] (emit menu_texts
                                (set_stdin [l2] (emit [welcome E; target_prompt E] s)))));
      [| rewrite scan_menu_run; reflexivity].
    rewrite (bind_Raise _ _ _ (Exn EOFError "EOF when reading a line")
               (write_stdout save_prompt
                  (set_stdin [] (emit menu_texts
                     (set_stdin [l2] (emit [welcome E; target_prompt E] s))))));
      [| reflexivity].
    repeat split.
Qed.

Lemma main_short_input_witness :
  fst (main Sample.lan (Sample.start ["localhost"; "2"]))
  = Raise (Exn EOFError "EOF when reading a line")
  /\ script_status Sample.lan (Sample.start ["localhost"; "2"]) = 1%Z
  /\ log (snd (main Sample.lan (Sample.start ["localhost"; "2"])))
     = log (Sample.start ["localhost"; "2"])
  /\ ticks (snd (main Sample.lan (Sample.start ["localhost"; "2"])))
     = ticks (Sample.start ["localhost"; "2"])
  /\ files (snd (main Sample.lan (Sample.start ["localhost"; "2"])))
     = files (Sample.start ["localhost"; "2"]).
Proof.
  apply (main_short_input Sample.lan (Sample.start ["localhost"; "2"])
           "localhost" ["2"] "127.0.0.1").
  - reflexivity.
  - simpl. lia.
  - vm_compute. reflexivity.
Defined.

(** ** The name of the result file *)

Lemma two_digits (n : N) :
  (n < 100)%N ->
  String.length (zfill 2 n) = 2 /\ decimal_value 0 (zfill 2 n) = n.
Proof.
  intros Hn.
  assert (Hall : forallb (fun k => Nat.eqb (String.length (zfill 2 (N.of_nat k))) 2
                                   && N.eqb (decimal_value 0 (zfill 2 (N.of_nat k)))
                                            (N.of_nat k))
                         (seq 0 100) = true) by (vm_compute; reflexivity).
  rewrite forallb_forall in Hall.
  specialize (Hall (N.to_nat n)). rewrite N2Nat.id in Hall.
  destruct (andb_prop _ _ (Hall ltac:(apply in_seq; lia))) as [Hl Hv].
  split; [apply Nat.eqb_eq, Hl | apply N.eqb_eq, Hv].
Qed.

Lemma four_digits (n : N) :
  (1000 <= n)%N -> (n <= 9999)%N ->
  String.length (str_of_N n) = 4 /\ decimal_value 0 (str_of_N n) = n.
Proof.
  intros Hlo Hhi.
  assert (Hall : forallb (fun k => Nat.eqb (String.length
                                              (str_of_N (1000 + N.of_nat k))) 4
                                   && N.eqb (decimal_value 0
                                               (str_of_N (1000 + N.of_nat k)))
                                            (1000 + N.of_nat k))
                         (seq 0 (N.to_nat 9000)) = true) by (vm_compute; reflexivity).
  rewrite forallb_forall in Hall.
  specialize (Hall (N.to_nat (n - 1000))).
  replace (1000 + N.of_nat (N.to_nat (n - 1000)))%N with n in Hall by lia.
  destruct (andb_prop _ _ (Hall ltac:(apply in_seq; lia))) as [Hl Hv].
  split; [apply Nat.eqb_eq, Hl | apply N.eqb_eq, Hv].
Qed.

Lemma append_inj (a a' b b' : string) :
  String.length a = String.length a' ->
  a +:+ b = a' +:+ b' ->
  a = a' /\ b = b'.
Proof.
  revert a'. induction a as [| x a IH]; intros [| x' a'] Hlen Heq;
    try discriminate Hlen.
  - split; [reflexivity | exact Heq].
  - change (String x (a +:+ b) = String x' (a' +:+ b')) in Heq.
    injection Heq as -> Heq. injection Hlen as Hlen.
    destruct (IH a' Hlen Heq) as [-> ->]. split; reflexivity.
Qed.

Lemma zfill2_same_length (n m : N) :
  (n < 100)%N -> (m < 100)%N ->
  String.length (zfill 2 n) = String.length (zfill 2 m).
Proof.
  intros Hn Hm.
  rewrite (proj1 (two_digits n Hn)), (proj1 (two_digits m Hm)). reflexivity.
Qed.

Lemma zfill2_inj (n m : N) :
  (n < 100)%N -> (m < 100)%N -> zfill 2 n = zfill 2 m -> n = m.
Proof.
  intros Hn Hm Heq.
  rewrite <- (proj2 (two_digits n Hn)), <- (proj2 (two_digits m Hm)), Heq.
  reflexivity.
Qed.

Lemma result_file_fields (d1 d2 : datetime) :
  four_digit_year d1 = true ->
  four_digit_year d2 = true ->
  result_file d1 = result_file d2 ->
  year d1 = year d2 /\ month d1 = month d2 /\ day d1 = day d2
  /\ hour d1 = hour d2 /\ minute d1 = minute d2 /\ second d1 = second d2.
Proof.
  unfold four_digit_year, result_file, strftime_stamp.
  intros H1 H2 Heq.
  repeat (apply andb_prop in H1 as [H1 ?]). repeat (apply andb_prop in H2 as [H2 ?]).
  repeat match goal with
         | H : N.leb _ _ = true |- _ => apply N.leb_le in H
         | H : N.ltb _ _ = true |- _ => apply N.ltb_lt in H
         end.
  injection Heq as Heq. change ("" +:+ ?x) with x in Heq.
  rewrite !append_assoc in Heq.
  apply append_inj in Heq as [Hy Heq];
    [| rewrite (proj1 (four_digits (year d1) ltac:(assumption) ltac:(assumption))),
               (proj1 (four_digits (year d2) ltac:(assumption) ltac:(assumption)));
       reflexivity].
  apply append_inj in Heq as [Hmo Heq];
    [| apply zfill2_same_length; assumption].
  apply append_inj in Heq as [Hd Heq];
    [| apply zfill2_same_length; assumption].
  injection Heq as Heq. change ("" +:+ ?x) with x in Heq.
  apply append_inj in Heq as [Hh Heq];
    [| apply zfill2_same_length; assumption].
  apply append_inj in Heq as [Hmi Heq];
    [| apply zfill2_same_length; assumption].
  apply append_inj in Heq as [Hs _];
    [| apply zfill2_same_length; assumption].
  repeat split; try (apply zfill2_inj; assumption).
  rewrite <- (proj2 (four_digits (year d1) ltac:(assumption) ltac:(assumption))),
          <- (proj2 (four_digits (year d2) ltac:(assumption) ltac:(assumption))), Hy.
  reflexivity.
Qed.


(** X24. For dates with a four-digit year the name of the result file
    determines the second it was saved in: results saved at different
    seconds never share a file, so one cannot overwrite the other. *)
Theorem result_file_injective (d1 d2 : datetime) :
  four_digit_year d1 = true ->
  four_digit_year d2 = true ->
  result_file d1 = result_file d2 ->
  year d1 = year d2 /\ month d1 = month d2 /\ day d1 = day d2
  /\ hour d1 = hour d2 /\ minute d1 = minute d2 /\ second d1 = second d2.
Proof. apply result_file_fields. Qed.

Lemma result_file_injective_witness :
  Sample.noon <> Cases.noon_and_a_quarter
  /\ result_file Sample.noon = result_file Cases.noon_and_a_quarter
  /\ year Sample.noon = year Cases.noon_and_a_quarter
  /\ month Sample.noon = month Cases.noon_and_a_quarter
  /\ day Sample.noon = day Cases.noon_and_a_quarter
  /\ hour Sample.noon = hour Cases.noon_and_a_quarter
  /\ minute Sample.noon = minute Cases.noon_and_a_quarter
  /\ second Sample.noon = second Cases.noon_and_a_quarter.
Proof.
  split; [discriminate |]. split; [reflexivity |].
  apply (result_file_injective Sample.noon Cases.noon_and_a_quarter); reflexivity.
Defined.

Lemma display_twice_files (E : Env) (nm1 nm2 : PortScanner) (s : State) :
  files (snd (display_scan_results E (Some nm2) true
                (snd (display_scan_results E (Some nm1) true s))))
  = <[result_file (clock E (S (ticks s))) := join nl (report_lines nm2)]>
      (<[result_file (clock E (ticks s)) := join nl (report_lines nm1)]> (files s)).
Proof. rewrite !display_scan_results_eq. reflexivity. Qed.

(** X25. Two results saved one after the other at different seconds
    are both kept, each in its own file. *)
Theorem display_twice_keeps_both (E : Env) (nm1 nm2 : PortScanner) (s : State) :
  four_digit_year (clock E (ticks s)) = true ->
  four_digit_year (clock E (S (ticks s))) = true ->
  second (clock E (ticks s)) <> second (clock E (S (ticks s))) ->
  let s2 := snd (display_scan_results E (Some nm2) true
                   (snd (display_scan_results E (Some nm1) true s))) in
  files s2 !! result_file (clock E (ticks s)) = Some (join nl (report_lines nm1))
  /\ files s2 !! result_file (clock E (S (ticks s)))
     = Some (join nl (report_lines nm2)).
Proof.
  intros H1 H2 Hsec. cbv zeta. rewrite display_twice_files. split.
  - rewrite lookup_insert_ne, lookup_insert_eq; [reflexivity |].
    intros Heq. apply Hsec. symmetry.
    apply (result_file_fields _ _ H2 H1 Heq).
  - apply lookup_insert_eq.
Qed.

Lemma display_twice_keeps_both_witness :
  let s2 := snd (display_scan_results Cases.plain (Some Cases.two_hosts) true
                   (snd (display_scan_results Cases.plain (Some Sample.one_host) true
                                              (Sample.start [])))) in
  files s2 !! result_file (clock Cases.plain (ticks (Sample.start [])))
  = Some (join nl (report_lines Sample.one_host))
  /\ files s2 !! result_file (clock Cases.plain (S (ticks (Sample.start []))))
     = Some (join nl (report_lines Cases.two_hosts)).
Proof.
  apply (display_twice_keeps_both Cases.plain Sample.one_host Cases.two_hosts
           (Sample.start [])).
  - reflexivity.
  - reflexivity.
  - vm_compute. discriminate.
Defined.

(** X26. The result file is opened for writing, not for appending: a
    second result saved within the same second replaces the first, of
    which nothing is left. *)
Theorem display_twice_same_second_overwrites
    (E : Env) (nm1 nm2 : PortScanner) (s : State) :
  strftime_stamp (clock E (S (ticks s))) = strftime_stamp (clock E (ticks s)) ->
  files (snd (display_scan_results E (Some nm2) true
                (snd (display_scan_results E (Some nm1) true s))))
  = <[result_file (clock E (ticks s)) := join nl (report_lines nm2)]> (files s).
Proof.
  intros Hsame. rewrite display_twice_files. unfold result_file.
  rewrite Hsame. apply insert_insert_eq.
Qed.

Lemma display_twice_same_second_overwrites_witness :
  files (snd (display_scan_results Sample.lan (Some Cases.two_hosts) true
                (snd (display_scan_results Sample.lan (Some Sample.one_host) true
                                           (Sample.start [])))))
  = <[result_file (clock Sample.lan (ticks (Sample.start [])))
      := join nl (report_lines Cases.two_hosts)]> (files (Sample.start [])).
Proof.
  apply (display_twice_same_second_overwrites Sample.lan Sample.one_host
           Cases.two_hosts (Sample.start [])).
  reflexivity.
Defined.
